(** * weather-app-backend: a shallow embedding of the Express route handlers

    The repository holds two versions of one Express server, [src/server.js]
    and [src/unnamed/part_000].  Each registers six routes on top of three
    collaborators: the OpenWeatherMap provider (reached with [axios]), a
    MongoDB collection [WeatherCache] (unique index on [city]) and a MongoDB
    collection [SearchHistory].

    The embedding has three layers.
    - [JS]: the parts of the JavaScript runtime the handlers call
      ([String.prototype.toLowerCase], [includes], [Math.round],
      [Number.prototype.toFixed], [Date.prototype.toLocaleDateString],
      ordinary objects and [Object.keys]).
    - [Db]: the two Mongoose models as explicit state with fallible
      operations, threaded through a small state-and-exception monad.
    - [ServerJs] and [Part000]: the route handlers, one module per source
      file, each translated from its own file.

    JavaScript numbers are IEEE 754 doubles.  The numeric fields of a
    forecast sample are Rocq's primitive binary64 floats, added and
    divided with the floating-point operations; only where the runtime
    itself goes by the exact value of a double ([Math.round],
    [Number.prototype.toFixed]) is that value taken as a rational.

    What is embedded is each handler as written.  Start-up is not: in
    [src/server.js] the first [app.listen(PORT, ...)] stands above the
    [const PORT] declaration, [src/unnamed/part_000] has it below. *)

From Stdlib Require Import ZArith QArith Qround String Ascii List Lia.
From Stdlib Require Import DecimalString Qabs Lqa Sorted Permutation.
From Stdlib Require Import Floats Uint63.
From stdpp Require Import gmap strings list.

Local Open Scope Z_scope.
Local Open Scope string_scope.
Local Open Scope list_scope.

Set Warnings "-inexact-float".

(* ===================================================================== *)
(** * The JavaScript runtime                                              *)
(* ===================================================================== *)

Module JS.

(** ** Strings *)

Definition isUpper (c : ascii) : bool :=
  let n := nat_of_ascii c in (Nat.leb 65 n && Nat.leb n 90)%bool.

(** [toLowerCase] on one code unit: the ASCII letters [A]..[Z] move down
    by 32, every other byte is left as it is. *)
Definition lowerChar (c : ascii) : ascii :=
  if isUpper c then ascii_of_nat (nat_of_ascii c + 32) else c.

Fixpoint toLowerCase (s : string) : string :=
  match s with
  | EmptyString => EmptyString
  | String c s' => String (lowerChar c) (toLowerCase s')
  end.

(** [startsWith s p]: [p] is a prefix of [s]. *)
Fixpoint startsWith (s p : string) : bool :=
  match p, s with
  | EmptyString, _ => true
  | String _ _, EmptyString => false
  | String a p', String b s' => (Ascii.eqb a b && startsWith s' p')%bool
  end.

(** [s.includes(sub)]: [sub] occurs in [s] at some position. *)
Fixpoint includes (s sub : string) : bool :=
  (startsWith s sub ||
   match s with
   | EmptyString => false
   | String _ s' => includes s' sub
   end)%bool.

(** ** Decimal numerals *)

Definition isDigit (c : ascii) : bool :=
  let n := nat_of_ascii c in (Nat.leb 48 n && Nat.leb n 57)%bool.

Fixpoint allDigits (s : string) : bool :=
  match s with
  | EmptyString => true
  | String c s' => (isDigit c && allDigits s')%bool
  end.

(** The decimal numeral of a natural number, without leading zeros
    ([0] is ["0"]). *)
Definition decimal (n : N) : string := NilZero.string_of_uint (N.to_uint n).

(** Reading a numeral back; [None] when some character is not a digit. *)
Fixpoint readDecimal (acc : N) (s : string) : option N :=
  match s with
  | EmptyString => Some acc
  | String c s' =>
      if isDigit c
      then readDecimal (acc * 10 + (N.of_nat (nat_of_ascii c) - 48))%N s'
      else None
  end.

(** ** Numbers *)

(** A number is a binary64 double: [float], with [PrimFloat.add] for
    [+] and [PrimFloat.div] for [/] (round to nearest, ties to even). *)

(** The exact value of a finite double as a fraction in lowest terms,
    both zeros being 0; [None] for [NaN] and the two infinities. *)
Definition exact (x : float) : option Q :=
  match Prim2SF x with
  | S754_zero _ => Some 0%Q
  | S754_finite s m e =>
      Some (Qred (inject_Z (if s then Zneg m else Zpos m) * Qpower (2 # 1) e))
  | S754_infinity _ => None
  | S754_nan => None
  end.

(** [Math.round(x)] as [JSON.stringify] writes it.  For a finite [x]:
    the integer nearest to the exact value of [x]; when two integers are
    equally near, the larger one (ECMA-262, 21.3.2.28: ties go towards
    plus infinity).  [NaN] and the infinities stay what they are and are
    written [null]: [None]. *)
Definition Math_round (x : float) : option Z :=
  match exact x with
  | Some q => Some (Qfloor (q + (1 # 2))%Q)
  | None => None
  end.

(** [x.toFixed(1)] for a finite [x] of exact value [q] (ECMA-262,
    21.1.3.3 with [fractionDigits = 1]).  A negative value contributes
    the sign and is negated; from [10^21] on the result is the runtime's
    [Number::toString] of the negated number, here [big]; otherwise [n] is
    the integer for which [n / 10 - q] is as close to zero as possible,
    the larger one when there are two, and the digits of [n] are split
    before the last one. *)
Definition toFixed1_finite (big : string) (q : Q) : string :=
  let s := if Qlt_le_dec q 0%Q then "-" else "" in
  let q := if Qlt_le_dec q 0%Q then Qopp q else q in
  if Qlt_le_dec q (inject_Z (10 ^ 21)) then
    let n := Z.to_N (Qfloor (q * inject_Z 10 + (1 # 2))%Q) in
    s ++ decimal (n / 10)%N ++ "." ++ decimal (n mod 10)%N
  else s ++ big.

(** [x.toFixed(1)]: a number that is not finite is printed by
    [Number::toString]; [Number_toString] is the runtime's printer for
    the finite numbers from [10^21] on. *)
Definition toFixed1 (Number_toString : float -> string) (x : float) : string :=
  match exact x with
  | Some q => toFixed1_finite (Number_toString (PrimFloat.abs x)) q
  | None =>
      if PrimFloat.is_nan x then "NaN"
      else if PrimFloat.ltb x PrimFloat.zero then "-Infinity" else "Infinity"
  end.

(** ** Dates *)

(** The proleptic Gregorian date [(year, month, day)] of a day number
    counted from 1 January 1970. *)
Definition civil_from_days (z : Z) : Z * Z * Z :=
  let z := z + 719468 in
  let era := z / 146097 in
  let doe := z - era * 146097 in
  let yoe := (doe - doe / 1460 + doe / 36524 - doe / 146096) / 365 in
  let doy := doe - (365 * yoe + yoe / 4 - yoe / 100) in
  let mp := (5 * doy + 2) / 153 in
  let d := doy - (153 * mp + 2) / 5 + 1 in
  let m := if Z.ltb mp 10 then mp + 3 else mp - 9 in
  let y := yoe + era * 400 + (if Z.leb m 2 then 1 else 0) in
  (y, m, d).

(** [new Date(ms).toLocaleDateString('en-IN')].  A time value beyond
    8.64e15 ms is an invalid date.  Otherwise the instant is moved to the
    host's zone ([utcOffset ms] minutes east of UTC at that instant) and
    rendered with the locale's pattern day/month/year, no padding. *)
Definition toLocaleDateString (utcOffset : Z -> Z) (ms : Z) : string :=
  if Z.leb (Z.abs ms) 8640000000000000 then
    let '(y, m, d) := civil_from_days ((ms + utcOffset ms * 60000) / 86400000) in
    let y := if Z.leb y 0 then 1 - y else y in
    decimal (Z.to_N d) ++ "/" ++ decimal (Z.to_N m) ++ "/" ++ decimal (Z.to_N y)
  else "Invalid Date".

(** ** Exceptions *)

Inductive Error : Type :=
  | TypeError        (* a property read or a call on [undefined] *)
  | AxiosError       (* the provider request did not succeed *)
  | MongoError       (* a storage operation failed *)
  | ValidationError. (* a document broke its schema *)

Inductive Completion (A : Type) : Type :=
  | Normal (a : A)
  | Throw (e : Error).
Arguments Normal {A} a.
Arguments Throw {A} e.

(** ** Ordinary objects *)

(** The own string-keyed properties of an object, in the order in which
    they were created. *)
Definition object (V : Type) : Type := list (string * V).

Fixpoint getOwn {V} (o : object V) (k : string) : option V :=
  match o with
  | [] => None
  | (k', v) :: o' => if String.eqb k' k then Some v else getOwn o' k
  end.

(** [o[k] = v]: an existing property keeps its place, a new one goes last. *)
Fixpoint setOwn {V} (o : object V) (k : string) (v : V) : object V :=
  match o with
  | [] => [(k, v)]
  | (k', v') :: o' =>
      if String.eqb k' k then (k', v) :: o' else (k', v') :: setOwn o' k v
  end.

(** The properties an object literal inherits from [Object.prototype]. *)
Definition Object_prototype : list string :=
  [ "constructor"; "__proto__"; "hasOwnProperty"; "isPrototypeOf";
    "propertyIsEnumerable"; "toLocaleString"; "toString"; "valueOf";
    "__defineGetter__"; "__defineSetter__"; "__lookupGetter__";
    "__lookupSetter__" ].

Definition inherited (k : string) : bool :=
  existsb (String.eqb k) Object_prototype.

(** An array index is the canonical numeral of an integer below 2^32 - 1. *)
Definition isArrayIndex (k : string) : bool :=
  match readDecimal 0 k with
  | Some n => (String.eqb (decimal n) k && N.ltb n 4294967295)%bool
  | None => false
  end.

Definition indexValue (k : string) : N :=
  match readDecimal 0 k with Some n => n | None => 0%N end.

Fixpoint insertIndex (k : string) (ks : list string) : list string :=
  match ks with
  | [] => [k]
  | k' :: ks' =>
      if N.leb (indexValue k) (indexValue k') then k :: ks
      else k' :: insertIndex k ks'
  end.

(** [Object.keys(o)]: the array indices in ascending numeric order, then
    the other keys in creation order (ECMA-262, OrdinaryOwnPropertyKeys). *)
Definition Object_keys {V} (o : object V) : list string :=
  let ks := List.map fst o in
  List.fold_right insertIndex [] (List.filter isArrayIndex ks)
  ++ List.filter (fun k => negb (isArrayIndex k)) ks.

(** ** Arrays *)

(** [a.reduce((a, b) => a + b)] with no initial value: a left fold of
    the double addition that starts from the first element, and a
    [TypeError] on the empty array. *)
Definition reduce_add (a : list float) : Completion float :=
  match a with
  | [] => Throw TypeError
  | x :: a' => Normal (List.fold_left PrimFloat.add a' x)
  end.

(** [a.length] as a number (an array has fewer than 2^32 elements). *)
Definition length_number {A} (a : list A) : float :=
  PrimFloat.of_uint63 (Uint63.of_Z (Z.of_nat (List.length a))).

(** [a.slice(0, n)] *)
Definition slice0 {A} (n : nat) (a : list A) : list A := List.firstn n a.

End JS.

(* ===================================================================== *)
(** * The data model                                                      *)
(* ===================================================================== *)

(** One entry of [item.weather]. *)
Record Condition : Type := {
  w_description : string;
  w_icon : string
}.

(** One 3-hourly element of the provider's [response.data.list]:
    [item.dt], [item.main.temp], [item.main.humidity], [item.wind.speed]
    and [item.weather]. *)
Record RawSample : Type := {
  dt : Z;
  main_temp : float;
  main_humidity : float;
  wind_speed : float;
  weather : list Condition
}.

(** The value of [grouped[date]]. *)
Record Bucket : Type := {
  temps : list float;
  b_humidity : list float;
  wind : list float;
  b_description : string;
  b_icon : string
}.

(** One element of [dailyData], its two rounded numbers as
    [JSON.stringify] writes them ([None] is [null]). *)
Record DailySummary : Type := {
  date : string;
  temperature : option Z;
  humidity : option Z;
  windSpeed : string;
  description : string;
  icon : string
}.

(** The provider's current-weather payload: its [name] field and the
    rest, which the server never looks at. *)
Record WeatherSnapshot : Type := {
  name : string;
  payload : string
}.

(** A [WeatherCache] document; its [city] is the key it is stored under. *)
Record CacheDoc : Type := {
  data : WeatherSnapshot;
  cachedAt : Z
}.

(** A [SearchHistory] document.  [userId] is [None] on a document read
    through [select('city searchedAt')]. *)
Record HistoryRecord : Type := {
  city : string;
  searchedAt : Z;
  userId : option string
}.

(** The two collections.  [WeatherCache] has a unique index on [city],
    hence a finite map; [SearchHistory] is kept in insertion order. *)
Record Store : Type := {
  WeatherCache : gmap string CacheDoc;
  SearchHistory : list HistoryRecord
}.

(** The storage operations a handler awaits. *)
Inductive Op : Type :=
  | CacheFindOne
  | CacheFindOneAndUpdate
  | HistoryCreate
  | HistoryFind
  | HistoryDeleteMany.

(** What a request meets outside the process: the host's zone and number
    printer, the clock at the three places where it is read, the
    provider's answers, and which storage operations fail. *)
Record World : Type := {
  utcOffset : Z -> Z;
  Number_toString : float -> string;
  now_lookup : Z;    (* [Date.now()] in the cache query *)
  now_cached : Z;    (* [new Date()] in the cache update *)
  now_searched : Z;  (* the [searchedAt] default of a new history record *)
  provider_weather : string -> option WeatherSnapshot;
  provider_forecast : string -> option (list RawSample);
  fails : Op -> bool
}.

(** The JSON a handler sends. *)
Inductive Body : Type :=
  | Health                               (* [{ ok: true }] *)
  | Weather (d : WeatherSnapshot)
  | Forecast (l : list DailySummary)
  | History (l : list HistoryRecord)
  | Cities (l : list string)
  | Message (m : string).                (* [{ message: m }] *)

Record Response : Type := {
  status : Z;
  body : Body
}.

(** [res.json(b)] and [res.status(c).json(b)] *)
Definition json (b : Body) : Response := {| status := 200; body := b |}.
Definition status_json (c : Z) (b : Body) : Response := {| status := c; body := b |}.

(* ===================================================================== *)
(** * Handlers as state transformers that may throw                       *)
(* ===================================================================== *)

Import JS.

Definition M (A : Type) : Type := Store -> Completion A * Store.

Definition ret {A} (a : A) : M A := fun st => (Normal a, st).

Definition throw {A} (e : Error) : M A := fun st => (Throw e, st).

Definition bind {A B} (m : M A) (k : A -> M B) : M B :=
  fun st =>
    match m st with
    | (Normal a, st') => k a st'
    | (Throw e, st') => (Throw e, st')
    end.

(** [try { m } catch (error) { h }] *)
Definition try_catch {A} (m : M A) (h : Error -> M A) : M A :=
  fun st =>
    match m st with
    | (Normal a, st') => (Normal a, st')
    | (Throw e, st') => h e st'
    end.

Definition lift {A} (c : Completion A) : M A := fun st => (c, st).

Notation "x <- m ;; k" := (bind m (fun x => k))
  (at level 62, m at next level, right associativity).

(* ===================================================================== *)
(** * The Mongoose models and the provider                                *)
(* ===================================================================== *)

Module Db.

(** [await op]: a failing storage operation rejects and leaves the
    collections as they were. *)
Definition await (w : World) (op : Op) {A} (m : M A) : M A :=
  if fails w op then throw MongoError else m.

(** [WeatherCache.findOne({ city, cachedAt: { $gte: since } })] *)
Definition WeatherCache_findOne (w : World) (c : string) (since : Z)
  : M (option CacheDoc) :=
  await w CacheFindOne (fun st =>
    (Normal match WeatherCache st !! c with
            | Some d => if Z.leb since (cachedAt d) then Some d else None
            | None => None
            end, st)).

(** [WeatherCache.findOneAndUpdate({ city }, { city, data, cachedAt },
    { upsert: true, new: true })] *)
Definition WeatherCache_findOneAndUpdate (w : World) (c : string)
    (d : WeatherSnapshot) (t : Z) : M unit :=
  await w CacheFindOneAndUpdate (fun st =>
    (Normal tt,
     {| WeatherCache := <[c := {| data := d; cachedAt := t |}]> (WeatherCache st);
        SearchHistory := SearchHistory st |})).

(** [SearchHistory.create({ city })]: [city] is [required], which for a
    string also rejects the empty one; [searchedAt] and [userId] take
    their schema defaults. *)
Definition SearchHistory_create (w : World) (c : string) : M unit :=
  await w HistoryCreate (fun st =>
    if String.eqb c "" then (Throw ValidationError, st)
    else
      (Normal tt,
       {| WeatherCache := WeatherCache st;
          SearchHistory :=
            SearchHistory st
            ++ [ {| city := c; searchedAt := now_searched w;
                    userId := Some "default" |} ] |})).

(** [.sort({ searchedAt: -1 })]: newest first; records of equal time keep
    their stored order. *)
Fixpoint insert_desc (r : HistoryRecord) (l : list HistoryRecord)
  : list HistoryRecord :=
  match l with
  | [] => [r]
  | r' :: l' =>
      if Z.leb (searchedAt r') (searchedAt r) then r :: l
      else r' :: insert_desc r l'
  end.

Definition sort_desc (l : list HistoryRecord) : list HistoryRecord :=
  List.fold_right insert_desc [] l.

(** [.select('city searchedAt')] *)
Definition select_city_searchedAt (r : HistoryRecord) : HistoryRecord :=
  {| city := city r; searchedAt := searchedAt r; userId := None |}.

(** [SearchHistory.find().sort({ searchedAt: -1 }).limit(10)
    .select('city searchedAt')] *)
Definition SearchHistory_find_recent (w : World) : M (list HistoryRecord) :=
  await w HistoryFind (fun st =>
    (Normal (List.map select_city_searchedAt
               (List.firstn 10 (sort_desc (SearchHistory st)))), st)).

(** [SearchHistory.deleteMany({})] *)
Definition SearchHistory_deleteMany (w : World) : M unit :=
  await w HistoryDeleteMany (fun st =>
    (Normal tt, {| WeatherCache := WeatherCache st; SearchHistory := [] |})).

(** [axios.get(`${BASE_URL}/weather?q=${city},IN&units=metric&appid=...`)]:
    any answer but a success rejects. *)
Definition axios_get_weather (w : World) (c : string) : M WeatherSnapshot :=
  match provider_weather w c with
  | Some d => ret d
  | None => throw AxiosError
  end.

(** [axios.get(`${BASE_URL}/forecast?q=${city},IN&units=metric&appid=...`)] *)
Definition axios_get_forecast (w : World) (c : string) : M (list RawSample) :=
  match provider_forecast w c with
  | Some l => ret l
  | None => throw AxiosError
  end.

End Db.

(* ===================================================================== *)
(** * Requests                                                            *)
(* ===================================================================== *)

(** The six routes the servers register.  [q] is [req.query.q], absent
    when the URL carries no such parameter. *)
Inductive Request : Type :=
  | GET_health
  | GET_api_weather (city : string)
  | GET_api_forecast (city : string)
  | GET_api_history
  | DELETE_api_history
  | GET_api_cities_search (q : option string).

(** [a.forEach(f)] where [f] updates what it closes over: the first
    exception ends the loop. *)
Fixpoint forEach {S A} (f : S -> A -> Completion S) (a : list A) (s : S)
  : Completion S :=
  match a with
  | [] => Normal s
  | x :: a' =>
      match f s x with
      | Normal s' => forEach f a' s'
      | Throw e => Throw e
      end
  end.

(** [x / a.length], the double division. *)
Definition div_length (x : float) (a : list float) : float :=
  PrimFloat.div x (length_number a).

(* ===================================================================== *)
(** * The handlers of [src/server.js]                                  *)
(* ===================================================================== *)

Module ServerJs.
Import Db.

(** [app.get('/health', ...)] *)
Definition get_health : M Response := ret (json Health).

(** The cache query of the weather route: the entry of the lowercased
    city, if cached no longer than ten minutes ago. *)
Definition cached (w : World) (city : string) : M (option CacheDoc) :=
  WeatherCache_findOne w (toLowerCase city) (now_lookup w - 10 * 60 * 1000).

(** [app.get('/api/weather/:city', ...)] *)
Definition get_api_weather (w : World) (city : string) : M Response :=
  try_catch
    (cached <- cached w city ;;
     match cached with
     | Some cached => ret (json (Weather (data cached)))
     | None =>
         response <- axios_get_weather w city ;;
         _ <- WeatherCache_findOneAndUpdate w (toLowerCase city) response
                (now_cached w) ;;
         _ <- SearchHistory_create w (name response) ;;
         ret (json (Weather response))
     end)
    (fun error => ret (status_json 404 (Message "City not found"))).

(** The body of [response.data.list.forEach(item => ...)].  A [date] that
    names an inherited property makes [grouped[date]] truthy without a
    bucket, and [grouped[date].temps.push] throws; so does
    [item.weather[0].description] on an empty [item.weather]. *)
Definition group_item (w : World) (grouped : object Bucket) (item : RawSample)
  : Completion (object Bucket) :=
  let date := toLocaleDateString (utcOffset w) (dt item * 1000) in
  let push b :=
    {| temps := temps b ++ [main_temp item];
       b_humidity := b_humidity b ++ [main_humidity item];
       wind := wind b ++ [wind_speed item];
       b_description := b_description b;
       b_icon := b_icon b |} in
  match getOwn grouped date with
  | Some b => Normal (setOwn grouped date (push b))
  | None =>
      if inherited date then Throw TypeError
      else
        match weather item with
        | [] => Throw TypeError
        | w0 :: _ =>
            Normal (setOwn grouped date
                      (push {| temps := []; b_humidity := []; wind := [];
                               b_description := w_description w0;
                               b_icon := w_icon w0 |}))
        end
  end.

(** The body of [Object.keys(grouped).slice(0, 7).forEach(date => ...)] *)
Definition push_summary (w : World) (grouped : object Bucket)
    (dailyData : list DailySummary) (date : string)
  : Completion (list DailySummary) :=
  match getOwn grouped date with
  | None => Throw TypeError
  | Some data =>
      match reduce_add (temps data) with
      | Throw e => Throw e
      | Normal t =>
      match reduce_add (b_humidity data) with
      | Throw e => Throw e
      | Normal h =>
      match reduce_add (wind data) with
      | Throw e => Throw e
      | Normal s =>
          Normal (dailyData ++
            [ {| date := date;
                 temperature := Math_round (div_length t (temps data));
                 humidity := Math_round (div_length h (b_humidity data));
                 windSpeed :=
                   toFixed1 (Number_toString w) (div_length s (wind data));
                 description := b_description data;
                 icon := b_icon data |} ])
      end end end
  end.

(** From [const dailyData = []] to the argument of [res.json]. *)
Definition dailyData (w : World) (samples : list RawSample)
  : Completion (list DailySummary) :=
  match forEach (group_item w) samples [] with
  | Throw e => Throw e
  | Normal grouped =>
      forEach (push_summary w grouped) (slice0 7 (Object_keys grouped)) []
  end.

(** [app.get('/api/forecast/:city', ...)] *)
Definition get_api_forecast (w : World) (city : string) : M Response :=
  try_catch
    (response <- axios_get_forecast w city ;;
     dailyData <- lift (dailyData w response) ;;
     ret (json (Forecast dailyData)))
    (fun error => ret (status_json 404 (Message "Forecast data not available"))).

(** The body of [history.forEach(item => ...)] on the pair
    [(uniqueHistory, seen)]. *)
Definition keep_unseen (acc : list HistoryRecord * gset string)
    (item : HistoryRecord) : list HistoryRecord * gset string :=
  let '(uniqueHistory, seen) := acc in
  if decide (toLowerCase (city item) ∈ seen) then (uniqueHistory, seen)
  else (uniqueHistory ++ [item], seen ∪ {[ toLowerCase (city item) ]}).

Definition uniqueHistory (history : list HistoryRecord) : list HistoryRecord :=
  fst (List.fold_left keep_unseen history ([], ∅)).

(** [app.get('/api/history', ...)] *)
Definition get_api_history (w : World) : M Response :=
  try_catch
    (history <- SearchHistory_find_recent w ;;
     ret (json (History (uniqueHistory history))))
    (fun error => ret (status_json 500 (Message "Error fetching history"))).

(** [app.delete('/api/history', ...)] *)
Definition delete_api_history (w : World) : M Response :=
  try_catch
    (_ <- SearchHistory_deleteMany w ;;
     ret (json (Message "History cleared")))
    (fun error => ret (status_json 500 (Message "Error clearing history"))).

Definition indianCities : list string :=
  [
    "Mumbai"; "Delhi"; "Bangalore"; "Hyderabad"; "Ahmedabad"; "Chennai";
    "Kolkata"; "Surat"; "Pune"; "Jaipur"; "Lucknow"; "Kanpur"; "Nagpur";
    "Indore"; "Thane"; "Bhopal"; "Visakhapatnam"; "Pimpri-Chinchwad";
    "Patna"; "Vadodara"; "Ghaziabad"; "Ludhiana"; "Agra"; "Nashik";
    "Faridabad"; "Meerut"; "Rajkot"; "Kalyan-Dombivali"; "Vasai-Virar";
    "Varanasi"; "Srinagar"; "Aurangabad"; "Dhanbad"; "Amritsar";
    "Navi Mumbai"; "Allahabad"; "Ranchi"; "Howrah"; "Coimbatore";
    "Jabalpur"; "Gwalior"; "Vijayawada"; "Jodhpur"; "Madurai"; "Raipur";
    "Kota"; "Chandigarh"; "Guwahati"; "Solapur"; "Hubli-Dharwad"; "Mysore";
    "Tiruchirappalli"; "Bareilly"; "Aligarh"; "Tiruppur"; "Moradabad";
    "Jalandhar"; "Bhubaneswar"; "Salem"; "Warangal"; "Mira-Bhayandar";
    "Thiruvananthapuram"; "Bhiwandi"; "Saharanpur"; "Guntur"; "Amravati";
    "Bikaner"; "Noida"; "Jamshedpur"; "Bhilai"; "Cuttack"; "Firozabad";
    "Kochi"; "Nellore"; "Bhavnagar"; "Dehradun"; "Durgapur"; "Asansol";
    "Rourkela"; "Nanded"; "Kolhapur"; "Ajmer"; "Akola"; "Gulbarga";
    "Jamnagar"; "Ujjain"; "Loni"; "Siliguri"; "Jhansi"; "Ulhasnagar";
    "Jammu"; "Sangli-Miraj"; "Mangalore"; "Erode"; "Belgaum"; "Ambattur";
    "Tirunelveli"; "Malegaon"; "Gaya"; "Udaipur"; "Maheshtala"; "Panipat"
  ].

(** [indianCities.filter(city => ...).slice(0, 5)] *)
Definition filtered (q : string) : list string :=
  slice0 5
    (List.filter (fun city => includes (toLowerCase city) (toLowerCase q))
       indianCities).

(** [app.get('/api/cities/search', ...)]: no [try] here; on an absent [q]
    the call [q.toLowerCase()] throws out of the handler. *)
Definition get_api_cities_search (q : option string) : M Response :=
  match q with
  | None => throw TypeError
  | Some q => ret (json (Cities (filtered q)))
  end.

(** The router. *)
Definition app (w : World) (r : Request) : M Response :=
  match r with
  | GET_health => get_health
  | GET_api_weather city => get_api_weather w city
  | GET_api_forecast city => get_api_forecast w city
  | GET_api_history => get_api_history w
  | DELETE_api_history => delete_api_history w
  | GET_api_cities_search q => get_api_cities_search q
  end.

End ServerJs.

(* ===================================================================== *)
(** * The handlers of [src/unnamed/part_000]                                  *)
(* ===================================================================== *)

Module Part000.
Import Db.

(** [app.get('/health', ...)] *)
Definition get_health : M Response := ret (json Health).

(** The cache query of the weather route: the entry of the lowercased
    city, if cached no longer than ten minutes ago. *)
Definition cached (w : World) (city : string) : M (option CacheDoc) :=
  WeatherCache_findOne w (toLowerCase city) (now_lookup w - 10 * 60 * 1000).

(** [app.get('/api/weather/:city', ...)] *)
Definition get_api_weather (w : World) (city : string) : M Response :=
  try_catch
    (cached <- cached w city ;;
     match cached with
     | Some cached => ret (json (Weather (data cached)))
     | None =>
         response <- axios_get_weather w city ;;
         _ <- WeatherCache_findOneAndUpdate w (toLowerCase city) response
                (now_cached w) ;;
         _ <- SearchHistory_create w (name response) ;;
         ret (json (Weather response))
     end)
    (fun error => ret (status_json 404 (Message "City not found"))).

(** The body of [response.data.list.forEach(item => ...)].  A [date] that
    names an inherited property makes [grouped[date]] truthy without a
    bucket, and [grouped[date].temps.push] throws; so does
    [item.weather[0].description] on an empty [item.weather]. *)
Definition group_item (w : World) (grouped : object Bucket) (item : RawSample)
  : Completion (object Bucket) :=
  let date := toLocaleDateString (utcOffset w) (dt item * 1000) in
  let push b :=
    {| temps := temps b ++ [main_temp item];
       b_humidity := b_humidity b ++ [main_humidity item];
       wind := wind b ++ [wind_speed item];
       b_description := b_description b;
       b_icon := b_icon b |} in
  match getOwn grouped date with
  | Some b => Normal (setOwn grouped date (push b))
  | None =>
      if inherited date then Throw TypeError
      else
        match weather item with
        | [] => Throw TypeError
        | w0 :: _ =>
            Normal (setOwn grouped date
                      (push {| temps := []; b_humidity := []; wind := [];
                               b_description := w_description w0;
                               b_icon := w_icon w0 |}))
        end
  end.

(** The body of [Object.keys(grouped).slice(0, 7).forEach(date => ...)] *)
Definition push_summary (w : World) (grouped : object Bucket)
    (dailyData : list DailySummary) (date : string)
  : Completion (list DailySummary) :=
  match getOwn grouped date with
  | None => Throw TypeError
  | Some data =>
      match reduce_add (temps data) with
      | Throw e => Throw e
      | Normal t =>
      match reduce_add (b_humidity data) with
      | Throw e => Throw e
      | Normal h =>
      match reduce_add (wind data) with
      | Throw e => Throw e
      | Normal s =>
          Normal (dailyData ++
            [ {| date := date;
                 temperature := Math_round (div_length t (temps data));
                 humidity := Math_round (div_length h (b_humidity data));
                 windSpeed :=
                   toFixed1 (Number_toString w) (div_length s (wind data));
                 description := b_description data;
                 icon := b_icon data |} ])
      end end end
  end.

(** From [const dailyData = []] to the argument of [res.json]. *)
Definition dailyData (w : World) (samples : list RawSample)
  : Completion (list DailySummary) :=
  match forEach (group_item w) samples [] with
  | Throw e => Throw e
  | Normal grouped =>
      forEach (push_summary w grouped) (slice0 7 (Object_keys grouped)) []
  end.

(** [app.get('/api/forecast/:city', ...)] *)
Definition get_api_forecast (w : World) (city : string) : M Response :=
  try_catch
    (response <- axios_get_forecast w city ;;
     dailyData <- lift (dailyData w response) ;;
     ret (json (Forecast dailyData)))
    (fun error => ret (status_json 404 (Message "Forecast data not available"))).

(** The body of [history.forEach(item => ...)] on the pair
    [(uniqueHistory, seen)]. *)
Definition keep_unseen (acc : list HistoryRecord * gset string)
    (item : HistoryRecord) : list HistoryRecord * gset string :=
  let '(uniqueHistory, seen) := acc in
  if decide (toLowerCase (city item) ∈ seen) then (uniqueHistory, seen)
  else (uniqueHistory ++ [item], seen ∪ {[ toLowerCase (city item) ]}).

Definition uniqueHistory (history : list HistoryRecord) : list HistoryRecord :=
  fst (List.fold_left keep_unseen history ([], ∅)).

(** [app.get('/api/history', ...)] *)
Definition get_api_history (w : World) : M Response :=
  try_catch
    (history <- SearchHistory_find_recent w ;;
     ret (json (History (uniqueHistory history))))
    (fun error => ret (status_json 500 (Message "Error fetching history"))).

(** [app.delete('/api/history', ...)] *)
Definition delete_api_history (w : World) : M Response :=
  try_catch
    (_ <- SearchHistory_deleteMany w ;;
     ret (json (Message "History cleared")))
    (fun error => ret (status_json 500 (Message "Error clearing history"))).

Definition indianCities : list string :=
  [
    "Mumbai"; "Delhi"; "Bangalore"; "Hyderabad"; "Ahmedabad"; "Chennai";
    "Kolkata"; "Surat"; "Pune"; "Jaipur"; "Lucknow"; "Kanpur"; "Nagpur";
    "Indore"; "Thane"; "Bhopal"; "Visakhapatnam"; "Patna"; "Vadodara";
    "Ghaziabad"; "Ludhiana"; "Agra"; "Nashik"; "Faridabad"; "Meerut";
    "Rajkot"; "Varanasi"; "Srinagar"; "Aurangabad"; "Amritsar";
    "Navi Mumbai"; "Allahabad"; "Ranchi"; "Coimbatore"; "Jabalpur";
    "Gwalior"; "Vijayawada"; "Jodhpur"; "Madurai"; "Raipur"; "Kota";
    "Chandigarh"; "Guwahati"; "Solapur"; "Mysore"; "Bareilly"; "Aligarh";
    "Moradabad"; "Jalandhar"; "Bhubaneswar"; "Salem"; "Warangal";
    "Thiruvananthapuram"; "Noida"; "Jamshedpur"; "Bhilai"; "Cuttack";
    "Dehradun"; "Durgapur"; "Asansol"; "Rourkela"; "Nanded"; "Kolhapur";
    "Ajmer"; "Ujjain"; "Jhansi"; "Jammu"; "Mangalore"; "Erode"; "Udaipur";
    "Panipat"
  ].

(** [indianCities.filter(city => ...).slice(0, 5)] *)
Definition filtered (q : string) : list string :=
  slice0 5
    (List.filter (fun city => includes (toLowerCase city) (toLowerCase q))
       indianCities).

(** [app.get('/api/cities/search', ...)]: no [try] here; on an absent [q]
    the call [q.toLowerCase()] throws out of the handler. *)
Definition get_api_cities_search (q : option string) : M Response :=
  match q with
  | None => throw TypeError
  | Some q => ret (json (Cities (filtered q)))
  end.

(** The router. *)
Definition app (w : World) (r : Request) : M Response :=
  match r with
  | GET_health => get_health
  | GET_api_weather city => get_api_weather w city
  | GET_api_forecast city => get_api_forecast w city
  | GET_api_history => get_api_history w
  | DELETE_api_history => delete_api_history w
  | GET_api_cities_search q => get_api_cities_search q
  end.

End Part000.

(* ===================================================================== *)
(** * Vocabulary of the specification                                     *)
(* ===================================================================== *)

(** [c] occurs in [s]. *)
Fixpoint contains (c : ascii) (s : string) : bool :=
  match s with
  | EmptyString => false
  | String c' s' => (Ascii.eqb c' c || contains c s')%bool
  end.

(** The grouping key of a sample. *)
Definition dateOf (w : World) (item : RawSample) : string :=
  toLocaleDateString (utcOffset w) (dt item * 1000).

(** The distinct elements of a list, each at its first occurrence. *)
Fixpoint firstOccurrences (l : list string) : list string :=
  match l with
  | [] => []
  | x :: l' =>
      x :: List.filter (fun y => negb (String.eqb y x)) (firstOccurrences l')
  end.

(** The date bucket [k]: the samples of that date, in input order. *)
Definition bucketOf (w : World) (samples : list RawSample) (k : string)
  : list RawSample :=
  List.filter (fun item => String.eqb (dateOf w item) k) samples.

(** The mean of a bucket's numbers as the code computes it: the doubles
    added from left to right, the sum divided by the count, each step
    rounded to a double. *)
Definition double_mean (l : list float) : float :=
  match l with
  | [] => PrimFloat.nan
  | x :: l' => div_length (List.fold_left PrimFloat.add l' x) l
  end.

Definition sum (l : list Q) : Q := List.fold_right Qplus 0%Q l.

Definition mean (l : list Q) : Q :=
  (sum l / inject_Z (Z.of_nat (List.length l)))%Q.

(** [z] is the integer nearest to [x], the larger one on a tie. *)
Definition nearest_ties_up (x : Q) (z : Z) : Prop :=
  (inject_Z z - (1 # 2) <= x)%Q /\ (x < inject_Z z + (1 # 2))%Q.

(** Rounding to the nearest integer with ties away from zero, as the
    specification words it. *)
Definition round_half_away_from_zero (x : Q) : Z :=
  if Qlt_le_dec x 0%Q then - Qfloor (- x + (1 # 2))%Q
  else Qfloor (x + (1 # 2))%Q.

(** The first record of each lowercased city, in order. *)
Fixpoint firstByCity (h : list HistoryRecord) : list HistoryRecord :=
  match h with
  | [] => []
  | r :: h' =>
      r :: List.filter
             (fun r' => negb (String.eqb (toLowerCase (city r'))
                                         (toLowerCase (city r))))
             (firstByCity h')
  end.

(** Newest first. *)
Definition newer_or_equal (a b : HistoryRecord) : Prop :=
  searchedAt b <= searchedAt a.

(** A query of spaces only (the empty one included). *)
Fixpoint spaces_only (q : string) : bool :=
  match q with
  | EmptyString => true
  | String c q' => (Ascii.eqb c " " && spaces_only q')%bool
  end.

(** The bucket object [b] has accumulated exactly the samples [B]: their
    numbers in order, and the first condition of the first sample. *)
Definition holds (b : Bucket) (B : list RawSample) : Prop :=
  temps b = List.map main_temp B /\
  b_humidity b = List.map main_humidity B /\
  wind b = List.map wind_speed B /\
  exists item rest c cs,
    B = item :: rest /\ weather item = c :: cs /\
    b_description b = w_description c /\ b_icon b = w_icon c.

(** [grouped] after the samples [p] went through the first loop. *)
Definition grouped_after (w : World) (p : list RawSample)
    (grouped : object Bucket) : Prop :=
  List.map fst grouped = firstOccurrences (List.map (dateOf w) p) /\
  forall k b, getOwn grouped k = Some b -> holds b (bucketOf w p k).

(** The summary [d] is what the second loop emits for the bucket [b]
    stored under [k]. *)
Definition summarizes (w : World) (k : string) (b : Bucket)
    (d : DailySummary) : Prop :=
  exists t h s,
    reduce_add (temps b) = Normal t /\
    reduce_add (b_humidity b) = Normal h /\
    reduce_add (wind b) = Normal s /\
    d = {| date := k;
           temperature := Math_round (div_length t (temps b));
           humidity := Math_round (div_length h (b_humidity b));
           windSpeed := toFixed1 (Number_toString w) (div_length s (wind b));
           description := b_description b;
           icon := b_icon b |}.

(** The world [w] with a provider that answers every forecast request
    with [samples]. *)
Definition answering_forecast (w : World) (samples : list RawSample) : World :=
  {| utcOffset := utcOffset w;
     Number_toString := Number_toString w;
     now_lookup := now_lookup w;
     now_cached := now_cached w;
     now_searched := now_searched w;
     provider_weather := provider_weather w;
     provider_forecast := fun _ => Some samples;
     fails := fails w |}.

(** A forecast sample with one condition. *)
Definition sample (seconds : Z) (temp humidity wind : float) : RawSample :=
  {| dt := seconds; main_temp := temp; main_humidity := humidity;
     wind_speed := wind;
     weather := [ {| w_description := "clear sky"; w_icon := "01d" |} ] |}.

(** Ten samples on ten different days, not in chronological order. *)
Definition ten_days : list RawSample :=
  List.map (fun day => sample (1793661000 + 86400 * day) 25 60 3)
    [3; 1; 2; 0; 4; 5; 6; 7; 8; 9].

(** The store after the cache update of the weather route. *)
Definition cache_put (st : Store) (c : string) (d : WeatherSnapshot) (t : Z)
  : Store :=
  {| WeatherCache := <[c := {| data := d; cachedAt := t |}]> (WeatherCache st);
     SearchHistory := SearchHistory st |}.

(** The record a completed fetch of [d] leaves in the history. *)
Definition history_record (w : World) (d : WeatherSnapshot) : HistoryRecord :=
  {| city := name d; searchedAt := now_searched w; userId := Some "default" |}.

Definition history_add (w : World) (st : Store) (d : WeatherSnapshot) : Store :=
  {| WeatherCache := WeatherCache st;
     SearchHistory := SearchHistory st ++ [history_record w d] |}.

(** Both writes that follow a fetch of [d] go through. *)
Definition writes_succeed (w : World) (d : WeatherSnapshot) : bool :=
  (negb (fails w CacheFindOneAndUpdate) && negb (fails w HistoryCreate)
   && negb (String.eqb (name d) ""))%bool.

Definition city_not_found : Response :=
  status_json 404 (Message "City not found").

Definition empty_store : Store := {| WeatherCache := ∅; SearchHistory := [] |}.

(** Only the cache update fails. *)
Definition cache_update_fails (op : Op) : bool :=
  match op with CacheFindOneAndUpdate => true | _ => false end.

Definition pune : WeatherSnapshot := {| name := "Pune"; payload := "{}" |}.

(** A provider that knows every city as [pune]. *)
Definition always_pune (c : string) : option WeatherSnapshot := Some pune.

(** A store whose cache holds [pune], cached at time [t]. *)
Definition pune_cached_at (t : Z) : Store :=
  {| WeatherCache := {[ "pune" := {| data := pune; cachedAt := t |} ]};
     SearchHistory := [] |}.

(** A history record as [SearchHistory.create] stores it. *)
Definition searched (c : string) (t : Z) : HistoryRecord :=
  {| city := c; searchedAt := t; userId := Some "default" |}.

(** Four searches, stored oldest first. *)
Definition four_searches : Store :=
  {| WeatherCache := ∅;
     SearchHistory :=
       [ searched "Delhi" 1; searched "Pune" 2; searched "Mumbai" 3;
         searched "Pune" 4 ] |}.

(** Only the history query fails. *)
Definition history_find_fails (op : Op) : bool :=
  match op with HistoryFind => true | _ => false end.

(** A city matches a query when its lowercased name includes the
    lowercased query. *)
Definition matches (q : string) (city : string) : bool :=
  includes (toLowerCase city) (toLowerCase q).

(** Some sample that opens a new date carries no weather condition. *)
Definition opens_date_without_condition (w : World) (samples : list RawSample)
  : Prop :=
  exists p x rest,
    samples = p ++ x :: rest /\
    ~ In (dateOf w x) (List.map (dateOf w) p) /\
    weather x = [].

Definition forecast_not_available : Response :=
  status_json 404 (Message "Forecast data not available").

(** A sample without any weather condition. *)
Definition bare_sample (seconds : Z) : RawSample :=
  {| dt := seconds; main_temp := 25; main_humidity := 60; wind_speed := 3;
     weather := [] |}.

(** Only the history write fails. *)
Definition history_create_fails (op : Op) : bool :=
  match op with HistoryCreate => true | _ => false end.

(** Only the cache query fails. *)
Definition cache_find_fails (op : Op) : bool :=
  match op with CacheFindOne => true | _ => false end.

(** The key under which the history route tells cities apart. *)
Definition cityKey (r : HistoryRecord) : string := toLowerCase (city r).

Definition history_cleared : Response := json (Message "History cleared").

Definition error_clearing_history : Response :=
  status_json 500 (Message "Error clearing history").

(** Only the history deletion fails. *)
Definition history_delete_fails (op : Op) : bool :=
  match op with HistoryDeleteMany => true | _ => false end.

(** [a] can be read off [b] from left to right. *)
Fixpoint isSubsequence (a b : list string) : bool :=
  match b with
  | [] => match a with [] => true | _ :: _ => false end
  | y :: b' =>
      match a with
      | [] => true
      | x :: a' =>
          if String.eqb x y then isSubsequence a' b' else isSubsequence a b'
      end
  end.

Definition error_fetching_history : Response :=
  status_json 500 (Message "Error fetching history").

(** The answers a route can give: its own success shape, or its own
    fixed error message. *)
Definition route_answer (r : Request) (resp : Response) : Prop :=
  match r with
  | GET_health => resp = json Health
  | GET_api_weather _ =>
      (exists d, resp = json (Weather d)) \/ resp = city_not_found
  | GET_api_forecast _ =>
      (exists l, resp = json (Forecast l)) \/ resp = forecast_not_available
  | GET_api_history =>
      (exists l, resp = json (History l)) \/ resp = error_fetching_history
  | DELETE_api_history =>
      resp = history_cleared \/ resp = error_clearing_history
  | GET_api_cities_search _ => exists l, resp = json (Cities l)
  end.

(** A host in Indian Standard Time. *)
Definition IST (weatherOf : string -> option WeatherSnapshot)
    (forecastOf : string -> option (list RawSample)) (now : Z)
    (failing : Op -> bool) : World :=
  {| utcOffset := fun _ => 330;
     Number_toString := fun _ => "1e+21";
     now_lookup := now; now_cached := now; now_searched := now;
     provider_weather := weatherOf;
     provider_forecast := forecastOf;
     fails := failing |}.

Definition no_failure (op : Op) : bool := false.

(* ===================================================================== *)
(** * The runtime on examples                                             *)
(* ===================================================================== *)

Example toFixed1_rounds_to_a_tenth : toFixed1 (fun _ => "") 1.75 = "1.8".
Proof. vm_compute. reflexivity. Qed.

Example toFixed1_goes_by_the_double :
  toFixed1 (fun _ => "") 1.45 = "1.4" /\ toFixed1 (fun _ => "") 1.25 = "1.3".
Proof. split; vm_compute; reflexivity. Qed.

Example toFixed1_keeps_the_sign : toFixed1 (fun _ => "") (-0.04) = "-0.0".
Proof. vm_compute. reflexivity. Qed.

Example toFixed1_not_finite :
  toFixed1 (fun _ => "") PrimFloat.nan = "NaN" /\
  toFixed1 (fun _ => "") PrimFloat.neg_infinity = "-Infinity".
Proof. split; vm_compute; reflexivity. Qed.

Example Math_round_tie_goes_up :
  Math_round (-2.5) = Some (-2) /\ Math_round 2.5 = Some 3.
Proof. split; vm_compute; reflexivity. Qed.

Example Math_round_not_finite : Math_round PrimFloat.infinity = None.
Proof. vm_compute. reflexivity. Qed.

Example double_mean_is_not_the_exact_mean :
  Math_round (double_mean [0.12; 0.95; 0.43]%float) = Some 0 /\
  toFixed1 (fun _ => "") (double_mean [2; 2.1]%float) = "2.0".
Proof. split; vm_compute; reflexivity. Qed.

Example toLocaleDateString_in_IST :
  toLocaleDateString (fun _ => 330) 1793661000000 = "3/11/2026".
Proof. vm_compute. reflexivity. Qed.

Example Object_keys_indices_first :
  Object_keys [("b", 1); ("7", 2); ("a", 3); ("10", 4); ("2", 5); ("07", 6)]
  = ["2"; "7"; "10"; "b"; "a"; "07"].
Proof. vm_compute. reflexivity. Qed.

Example search_mum : ServerJs.filtered "mum" = [ "Mumbai"; "Navi Mumbai" ].
Proof. vm_compute. reflexivity. Qed.

(* ===================================================================== *)
(** * Facts about the runtime                                             *)
(* ===================================================================== *)

Section Strings.

Lemma contains_append c a b :
  contains c (a ++ b) = (contains c a || contains c b)%bool.
Proof.
  induction a as [|x a IH]; simpl; [reflexivity|].
  rewrite IH. now rewrite orb_assoc.
Qed.

Lemma allDigits_no_slash s : allDigits s = true -> contains "/" s = false.
Proof.
  induction s as [|c s IH]; simpl; [reflexivity|].
  intros [Hc Hs]%andb_prop. rewrite (IH Hs), orb_false_r.
  destruct (Ascii.eqb_spec c "/") as [->|]; [discriminate Hc|reflexivity].
Qed.

Lemma readDecimal_allDigits s : forall acc n,
  readDecimal acc s = Some n -> allDigits s = true.
Proof.
  induction s as [|c s IH]; simpl; intros acc n H; [reflexivity|].
  destruct (isDigit c); [|discriminate]. simpl. eauto.
Qed.

Lemma isArrayIndex_no_slash k : contains "/" k = true -> isArrayIndex k = false.
Proof.
  intros Hk. unfold isArrayIndex.
  destruct (readDecimal 0 k) as [n|] eqn:E; [|reflexivity].
  apply readDecimal_allDigits, allDigits_no_slash in E. congruence.
Qed.

Lemma inherited_no_slash k : contains "/" k = true -> inherited k = false.
Proof.
  intros Hk. destruct (inherited k) eqn:E; [|reflexivity].
  unfold inherited in E. apply existsb_exists in E as (x & Hx & ->%String.eqb_eq).
  simpl in Hx.
  repeat (destruct Hx as [<-|Hx]; [discriminate Hk|]). contradiction.
Qed.

(** A rendered date is either a day/month/year string or the text of an
    invalid date; neither is an array index or an inherited property. *)
Lemma toLocaleDateString_shape off ms :
  contains "/" (toLocaleDateString off ms) = true
  \/ toLocaleDateString off ms = "Invalid Date".
Proof.
  unfold toLocaleDateString.
  destruct (Z.leb _ _); [left|right; reflexivity].
  destruct (civil_from_days _) as [[y m] d].
  rewrite contains_append. apply orb_true_iff. right. reflexivity.
Qed.

Lemma toLocaleDateString_not_index off ms :
  isArrayIndex (toLocaleDateString off ms) = false.
Proof.
  destruct (toLocaleDateString_shape off ms) as [H| ->];
    [now apply isArrayIndex_no_slash|reflexivity].
Qed.

Lemma toLocaleDateString_not_inherited off ms :
  inherited (toLocaleDateString off ms) = false.
Proof.
  destruct (toLocaleDateString_shape off ms) as [H| ->];
    [now apply inherited_no_slash|reflexivity].
Qed.

End Strings.

Section Objects.

Context {V : Type}.
Implicit Types (o : object V) (k : string) (v : V).

Lemma getOwn_None_keys o k : getOwn o k = None <-> ~ In k (List.map fst o).
Proof.
  induction o as [|[k' v'] o IH]; simpl; [tauto|].
  destruct (String.eqb_spec k' k) as [->|Hne].
  - split; [discriminate|intros H; exfalso; apply H; now left].
  - rewrite IH. tauto.
Qed.

Lemma getOwn_Some_keys o k v : getOwn o k = Some v -> In k (List.map fst o).
Proof.
  intros H. destruct (in_dec string_dec k (List.map fst o)) as [|Hn]; [assumption|].
  apply getOwn_None_keys in Hn. congruence.
Qed.

Lemma getOwn_setOwn_eq o k v : getOwn (setOwn o k v) k = Some v.
Proof.
  induction o as [|[k' v'] o IH]; simpl.
  - now rewrite String.eqb_refl.
  - destruct (String.eqb_spec k' k) as [->|Hne]; simpl.
    + now rewrite String.eqb_refl.
    + destruct (String.eqb_spec k' k); [contradiction|assumption].
Qed.

Lemma getOwn_setOwn_ne o k k' v :
  k <> k' -> getOwn (setOwn o k v) k' = getOwn o k'.
Proof.
  intros Hne. induction o as [|[k0 v0] o IH]; simpl.
  - destruct (String.eqb_spec k k'); [contradiction|reflexivity].
  - destruct (String.eqb_spec k0 k) as [->|H0]; simpl.
    + destruct (String.eqb_spec k k'); [contradiction|reflexivity].
    + now rewrite IH.
Qed.

Lemma setOwn_existing o k v v' :
  getOwn o k = Some v' -> List.map fst (setOwn o k v) = List.map fst o.
Proof.
  induction o as [|[k0 v0] o IH]; simpl; [discriminate|].
  destruct (String.eqb_spec k0 k) as [->|H0]; simpl; [reflexivity|].
  intros H. now rewrite IH.
Qed.

Lemma setOwn_new o k v : getOwn o k = None -> setOwn o k v = o ++ [(k, v)].
Proof.
  induction o as [|[k0 v0] o IH]; simpl; [reflexivity|].
  destruct (String.eqb_spec k0 k) as [->|H0]; [discriminate|].
  intros H. now rewrite IH.
Qed.

(** Without array indices among the keys, [Object.keys] is the creation
    order. *)
Lemma Object_keys_creation_order o :
  (forall k, In k (List.map fst o) -> isArrayIndex k = false) ->
  Object_keys o = List.map fst o.
Proof.
  unfold Object_keys. generalize (List.map fst o) as ks.
  induction ks as [|k ks IH]; simpl; intros H; [reflexivity|].
  rewrite (H k (or_introl eq_refl)). simpl.
  specialize (IH (fun k' Hk' => H k' (or_intror Hk'))).
  destruct (List.filter isArrayIndex ks) eqn:E.
  - simpl in *. now rewrite IH.
  - exfalso. assert (Hin : In s (List.filter isArrayIndex ks)) by (rewrite E; now left).
    apply filter_In in Hin as [Hin Hs]. rewrite (H s (or_intror Hin)) in Hs. discriminate.
Qed.

End Objects.

Section FirstOccurrences.

Lemma firstn_In {A} (x : A) n : forall l, In x (List.firstn n l) -> In x l.
Proof.
  induction n as [|n IH]; intros [|a l]; simpl; try tauto.
  intros [?|?]; auto.
Qed.

Lemma firstOccurrences_In x l : In x (firstOccurrences l) <-> In x l.
Proof.
  induction l as [|a l IH]; simpl; [tauto|].
  rewrite filter_In, IH.
  destruct (String.eqb_spec x a) as [->|Hne]; simpl.
  - split; [intros [?|[? ?]]|]; auto.
  - split; [intros [?|[? ?]]; auto|intros [?|?]; auto].
Qed.

Lemma firstOccurrences_snoc l x :
  firstOccurrences (l ++ [x]) =
  firstOccurrences l ++ (if existsb (String.eqb x) l then [] else [x]).
Proof.
  induction l as [|a l IH]; simpl; [reflexivity|].
  rewrite IH, List.filter_app. f_equal. f_equal.
  destruct (existsb (String.eqb x) l); simpl.
  - now rewrite orb_true_r.
  - rewrite orb_false_r. now destruct (String.eqb x a).
Qed.

Lemma firstOccurrences_snoc_seen l x :
  In x l -> firstOccurrences (l ++ [x]) = firstOccurrences l.
Proof.
  intros H. rewrite firstOccurrences_snoc.
  replace (existsb (String.eqb x) l) with true; [apply app_nil_r|].
  symmetry. apply existsb_exists. exists x. split; [assumption|apply String.eqb_refl].
Qed.

Lemma firstOccurrences_snoc_new l x :
  ~ In x l -> firstOccurrences (l ++ [x]) = firstOccurrences l ++ [x].
Proof.
  intros H. rewrite firstOccurrences_snoc.
  destruct (existsb (String.eqb x) l) eqn:E; [|reflexivity].
  apply existsb_exists in E as (y & Hy & ->%String.eqb_eq). contradiction.
Qed.

Lemma firstOccurrences_NoDup l : List.NoDup (firstOccurrences l).
Proof.
  induction l as [|a l IH]; simpl; constructor.
  - rewrite filter_In. intros [_ H]. now rewrite String.eqb_refl in H.
  - now apply List.NoDup_filter.
Qed.

(** On a list without repetition there is nothing to drop. *)
Lemma firstOccurrences_distinct l : List.NoDup l -> firstOccurrences l = l.
Proof.
  induction 1 as [|a l Ha Hl IH]; simpl; [reflexivity|].
  rewrite IH. f_equal. apply forallb_filter_id.
  apply forallb_forall. intros y Hy.
  destruct (String.eqb_spec y a) as [->|]; [contradiction|reflexivity].
Qed.

End FirstOccurrences.

(* ===================================================================== *)
(** * The forecast aggregator                                             *)
(* ===================================================================== *)

Section Grouping.

Variable w : World.

Lemma bucketOf_snoc p x k :
  bucketOf w (p ++ [x]) k =
  bucketOf w p k ++ (if String.eqb (dateOf w x) k then [x] else []).
Proof. unfold bucketOf. now rewrite List.filter_app. Qed.

Lemma bucketOf_absent p k :
  ~ In k (List.map (dateOf w) p) -> bucketOf w p k = [].
Proof.
  unfold bucketOf. induction p as [|x p IH]; simpl; [reflexivity|].
  intros H. destruct (String.eqb_spec (dateOf w x) k) as [E|_].
  - exfalso. apply H. now left.
  - apply IH. intros Hin. apply H. now right.
Qed.

Lemma bucketOf_present p k :
  In k (List.map (dateOf w) p) -> bucketOf w p k <> [].
Proof.
  intros (x & <- & Hx)%in_map_iff E.
  assert (Hin : In x (bucketOf w p (dateOf w x))).
  { apply filter_In. split; [assumption|apply String.eqb_refl]. }
  rewrite E in Hin. contradiction.
Qed.

(** One step of the first loop keeps [grouped_after]. *)
Lemma group_item_step p grouped x grouped' :
  grouped_after w p grouped ->
  ServerJs.group_item w grouped x = Normal grouped' ->
  grouped_after w (p ++ [x]) grouped'.
Proof.
  intros [Hkeys Hb] Hstep. unfold ServerJs.group_item in Hstep.
  fold (dateOf w x) in Hstep.
  destruct (getOwn grouped (dateOf w x)) as [b|] eqn:Eb.
  - (* the date has its bucket already *)
    injection Hstep as <-. split.
    + rewrite (setOwn_existing _ _ _ _ Eb), Hkeys, map_app. simpl.
      symmetry. apply firstOccurrences_snoc_seen.
      apply firstOccurrences_In. rewrite <- Hkeys.
      eapply getOwn_Some_keys; eassumption.
    + intros k b' Hk. rewrite bucketOf_snoc.
      destruct (String.eqb_spec (dateOf w x) k) as [<-|Hne].
      * rewrite getOwn_setOwn_eq in Hk. injection Hk as <-.
        destruct (Hb _ _ Eb) as (Ht & Hh & Hw & item & rest & c & cs & HB & Hc & Hd & Hi).
        unfold holds. simpl. rewrite Ht, Hh, Hw, !map_app. simpl.
        repeat split; try reflexivity.
        exists item, (rest ++ [x]), c, cs. rewrite HB. auto.
      * rewrite getOwn_setOwn_ne in Hk by assumption.
        rewrite app_nil_r. now apply Hb.
  - (* a new date *)
    destruct (inherited (dateOf w x)); [discriminate|].
    destruct (weather x) as [|c cs] eqn:Ec; [discriminate|].
    injection Hstep as <-.
    assert (Hnew : ~ In (dateOf w x) (List.map (dateOf w) p)).
    { rewrite <- firstOccurrences_In, <- Hkeys. now apply getOwn_None_keys. }
    split.
    + rewrite (setOwn_new _ _ _ Eb), !map_app, Hkeys. simpl.
      symmetry. now apply firstOccurrences_snoc_new.
    + intros k b' Hk. rewrite bucketOf_snoc.
      destruct (String.eqb_spec (dateOf w x) k) as [<-|Hne].
      * rewrite getOwn_setOwn_eq in Hk. injection Hk as <-.
        rewrite (bucketOf_absent _ _ Hnew). unfold holds. simpl.
        repeat split; try reflexivity.
        exists x, [], c, cs. auto.
      * rewrite getOwn_setOwn_ne in Hk by assumption.
        rewrite app_nil_r. now apply Hb.
Qed.

Lemma group_items_after samples : forall p grouped grouped',
  grouped_after w p grouped ->
  forEach (ServerJs.group_item w) samples grouped = Normal grouped' ->
  grouped_after w (p ++ samples) grouped'.
Proof.
  induction samples as [|x samples IH]; simpl; intros p g g' Hg H.
  - injection H as <-. now rewrite app_nil_r.
  - destruct (ServerJs.group_item w g x) as [g1|] eqn:E; [|discriminate].
    replace (p ++ x :: samples) with ((p ++ [x]) ++ samples)
      by now rewrite <- app_assoc.
    eapply IH; [|eassumption]. eapply group_item_step; eassumption.
Qed.

Lemma grouped_after_nil : grouped_after w [] [].
Proof. split; [reflexivity|discriminate]. Qed.

(** The first loop runs to its end when every sample has a condition. *)
Lemma group_items_total samples : forall grouped,
  Forall (fun item => weather item <> []) samples ->
  exists grouped', forEach (ServerJs.group_item w) samples grouped = Normal grouped'.
Proof.
  induction samples as [|x samples IH]; simpl; intros g Hw.
  - now exists g.
  - apply Forall_cons_iff in Hw as [Hx Hw].
    assert (E : exists g1, ServerJs.group_item w g x = Normal g1).
    { unfold ServerJs.group_item.
      destruct (getOwn g _); [eauto|].
      rewrite toLocaleDateString_not_inherited.
      destruct (weather x); [contradiction|eauto]. }
    destruct E as [g1 ->]. now apply IH.
Qed.

End Grouping.

Section Summaries.

Variable w : World.

Lemma holds_reduce b B :
  holds b B ->
  exists t h s,
    reduce_add (temps b) = Normal t /\
    reduce_add (b_humidity b) = Normal h /\
    reduce_add (wind b) = Normal s.
Proof.
  intros (-> & -> & -> & item & rest & c & cs & -> & _). simpl.
  do 3 eexists. repeat split; reflexivity.
Qed.

Lemma push_summary_bucket grouped acc k b B :
  getOwn grouped k = Some b -> holds b B ->
  exists d, ServerJs.push_summary w grouped acc k = Normal (acc ++ [d])
            /\ summarizes w k b d.
Proof.
  intros Hk HB. destruct (holds_reduce _ _ HB) as (t & h & s & Ht & Hh & Hs).
  unfold ServerJs.push_summary. rewrite Hk, Ht, Hh, Hs.
  eexists. split; [reflexivity|]. exists t, h, s. auto.
Qed.

(** The second loop emits one summary per key, in the order of the keys. *)
Lemma push_summaries grouped B ks : forall acc,
  (forall k, In k ks -> exists b, getOwn grouped k = Some b /\ holds b (B k)) ->
  exists out,
    forEach (ServerJs.push_summary w grouped) ks acc = Normal (acc ++ out) /\
    List.Forall2
      (fun k d => exists b, holds b (B k) /\ summarizes w k b d) ks out.
Proof.
  induction ks as [|k ks IH]; simpl; intros acc H.
  - exists []. now rewrite app_nil_r.
  - destruct (H k (or_introl eq_refl)) as (b & Hk & Hb).
    destruct (push_summary_bucket grouped acc k b _ Hk Hb) as (d & -> & Hd).
    destruct (IH (acc ++ [d]) (fun k' Hk' => H k' (or_intror Hk')))
      as (out & -> & Hout).
    exists (d :: out). rewrite <- app_assoc. split; [reflexivity|].
    constructor; eauto.
Qed.

Lemma grouped_after_keys p grouped :
  grouped_after w p grouped ->
  Object_keys grouped = firstOccurrences (List.map (dateOf w) p).
Proof.
  intros [Hkeys _]. rewrite <- Hkeys.
  apply Object_keys_creation_order. intros k Hk.
  rewrite Hkeys, firstOccurrences_In in Hk.
  apply in_map_iff in Hk as (x & <- & _). apply toLocaleDateString_not_index.
Qed.

Lemma grouped_after_buckets p grouped k :
  grouped_after w p grouped ->
  In k (List.firstn 7 (firstOccurrences (List.map (dateOf w) p))) ->
  exists b, getOwn grouped k = Some b /\ holds b (bucketOf w p k).
Proof.
  intros [Hkeys Hb] Hk. apply firstn_In in Hk. rewrite <- Hkeys in Hk.
  destruct (getOwn grouped k) as [b|] eqn:Ek.
  - exists b. split; [reflexivity|]. now apply Hb.
  - apply getOwn_None_keys in Ek. contradiction.
Qed.

(** When the first loop has run to its end, so does the second; it emits
    one summary for each of the first seven dates in order of first
    occurrence, computed from the bucket of that date. *)
Lemma dailyData_grouped samples grouped :
  forEach (ServerJs.group_item w) samples [] = Normal grouped ->
  exists out,
    ServerJs.dailyData w samples = Normal out /\
    List.Forall2
      (fun k d => exists b, holds b (bucketOf w samples k) /\ summarizes w k b d)
      (List.firstn 7 (firstOccurrences (List.map (dateOf w) samples))) out.
Proof.
  intros E. unfold ServerJs.dailyData. rewrite E.
  pose proof (group_items_after w samples [] [] grouped (grouped_after_nil w) E)
    as Hg.
  simpl in Hg. unfold slice0. rewrite (grouped_after_keys _ _ Hg).
  destruct (push_summaries grouped (bucketOf w samples)
              (List.firstn 7 (firstOccurrences (List.map (dateOf w) samples))) [])
    as (out & Hrun & Hout).
  - intros k Hk. eapply grouped_after_buckets; eassumption.
  - exists out. split; assumption.
Qed.

Lemma dailyData_summaries samples out :
  ServerJs.dailyData w samples = Normal out ->
  List.Forall2
    (fun k d => exists b, holds b (bucketOf w samples k) /\ summarizes w k b d)
    (List.firstn 7 (firstOccurrences (List.map (dateOf w) samples))) out.
Proof.
  intros H.
  destruct (forEach (ServerJs.group_item w) samples []) as [grouped|] eqn:E.
  - destruct (dailyData_grouped samples grouped E) as (out' & H' & Hout).
    rewrite H in H'. injection H' as ->. exact Hout.
  - unfold ServerJs.dailyData in H. rewrite E in H. discriminate.
Qed.

Lemma dailyData_total samples :
  Forall (fun item => weather item <> []) samples ->
  exists out, ServerJs.dailyData w samples = Normal out.
Proof.
  intros Hw. destruct (group_items_total w samples [] Hw) as (grouped & E).
  destruct (dailyData_grouped samples grouped E) as (out & H & _). eauto.
Qed.

End Summaries.

(* ===================================================================== *)
(** * Rounding                                                            *)
(* ===================================================================== *)

Section Rounding.

Lemma reduce_add_mean l t :
  reduce_add l = Normal t -> div_length t l = double_mean l.
Proof. destruct l as [|x l]; simpl; [discriminate|]. now intros [= <-]. Qed.

Lemma Math_round_exact x q :
  exact x = Some q -> Math_round x = Some (Qfloor (q + (1 # 2))%Q).
Proof. intros H. unfold Math_round. now rewrite H. Qed.

Lemma Math_round_null x : exact x = None -> Math_round x = None.
Proof. intros H. unfold Math_round. now rewrite H. Qed.

Lemma Qfloor_half_nearest x : nearest_ties_up x (Qfloor (x + (1 # 2))%Q).
Proof.
  unfold nearest_ties_up.
  pose proof (Qfloor_le (x + (1 # 2))) as Hle.
  pose proof (Qlt_floor (x + (1 # 2))) as Hlt.
  rewrite inject_Z_plus in Hlt. change (inject_Z 1) with 1%Q in Hlt.
  split; lra.
Qed.

Lemma nearest_ties_up_comp x y z :
  (x == y)%Q -> nearest_ties_up x z -> nearest_ties_up y z.
Proof. unfold nearest_ties_up. intros H. now rewrite H. Qed.

(** The nearest integer with ties upward is unique. *)
Lemma nearest_ties_up_unique x z z' :
  nearest_ties_up x z -> nearest_ties_up x z' -> z = z'.
Proof.
  unfold nearest_ties_up. intros [H1 H2] [H3 H4].
  assert (Ha : (inject_Z z < inject_Z z' + 1)%Q) by lra.
  assert (Hb : (inject_Z z' < inject_Z z + 1)%Q) by lra.
  change 1%Q with (inject_Z 1) in Ha, Hb.
  rewrite <- inject_Z_plus, <- Zlt_Qlt in Ha.
  rewrite <- inject_Z_plus, <- Zlt_Qlt in Hb. lia.
Qed.

Lemma decimal_one_digit d : (d < 10)%N -> String.length (decimal d) = 1%nat.
Proof.
  intros H.
  assert (Hd : In d [0; 1; 2; 3; 4; 5; 6; 7; 8; 9]%N).
  { simpl. lia. }
  simpl in Hd. repeat (destruct Hd as [<-|Hd]; [reflexivity|]). contradiction.
Qed.

(** Below [10^21], [toFixed1_finite] prints the sign, a numeral, a point
    and one digit; the number printed is [|q|] rounded to the nearest
    tenth, up on a tie. *)
Lemma toFixed1_digits big q :
  (Qabs q < inject_Z (10 ^ 21))%Q ->
  exists whole digit : N,
    (digit < 10)%N /\
    toFixed1_finite big q =
      ((if Qlt_le_dec q 0%Q then "-" else "")
       ++ decimal whole ++ "." ++ decimal digit)%string /\
    nearest_ties_up (Qabs q * inject_Z 10) (Z.of_N (10 * whole + digit)).
Proof.
  intros Hx. unfold toFixed1_finite.
  set (y := if Qlt_le_dec q 0%Q then Qopp q else q).
  assert (Hy : (y == Qabs q)%Q).
  { subst y. destruct (Qlt_le_dec q 0%Q).
    - symmetry. apply Qabs_neg. lra.
    - symmetry. now apply Qabs_pos. }
  destruct (Qlt_le_dec y (inject_Z (10 ^ 21))) as [_|Hge]; [|lra].
  set (n := Z.to_N (Qfloor (y * inject_Z 10 + (1 # 2))%Q)).
  exists (n / 10)%N, (n mod 10)%N.
  split; [apply N.mod_lt; discriminate|]. split; [reflexivity|].
  rewrite <- N.div_mod by discriminate.
  assert (H0 : (0 <= y)%Q) by (rewrite Hy; apply Qabs_nonneg).
  assert (Hn : 0 <= Qfloor (y * inject_Z 10 + (1 # 2))%Q).
  { change 0 with (Qfloor 0%Q). apply Qfloor_resp_le.
    assert ((0 <= y * inject_Z 10)%Q) by (apply Qmult_le_0_compat; [assumption|discriminate]).
    lra. }
  subst n. rewrite Z2N.id by assumption.
  apply (nearest_ties_up_comp (y * inject_Z 10)); [now rewrite Hy|].
  apply Qfloor_half_nearest.
Qed.

Lemma toFixed1_exact printer x q :
  exact x = Some q ->
  toFixed1 printer x = toFixed1_finite (printer (PrimFloat.abs x)) q.
Proof. intros H. unfold toFixed1. now rewrite H. Qed.

End Rounding.

(* ===================================================================== *)
(** * Claims about the forecast aggregator                                *)
(* ===================================================================== *)

Section Forall2Facts.

Context {A B : Type}.

Lemma Forall2_In_r (P : A -> B -> Prop) l1 l2 y :
  List.Forall2 P l1 l2 -> In y l2 -> exists x, In x l1 /\ P x y.
Proof.
  induction 1 as [|x y' l1 l2 Hxy _ IH]; simpl; [contradiction|].
  intros [<-|Hy].
  - exists x. auto.
  - destruct (IH Hy) as (x' & Hx' & HP). exists x'. auto.
Qed.

Lemma Forall2_map_r (f : B -> A) l1 l2 :
  List.Forall2 (fun x y => f y = x) l1 l2 -> List.map f l2 = l1.
Proof. induction 1; simpl; congruence. Qed.

End Forall2Facts.

Lemma NoDup_firstn {A} n : forall l : list A,
  List.NoDup l -> List.NoDup (List.firstn n l).
Proof.
  induction n as [|n IH]; intros [|a l] H; simpl; try constructor.
  - intros Hin. apply firstn_In in Hin. now inversion H.
  - apply IH. now inversion H.
Qed.

Lemma summarizes_date w k b d : summarizes w k b d -> date d = k.
Proof. intros (t & h & s & _ & _ & _ & ->). reflexivity. Qed.

Lemma dailyData_dates w samples out :
  ServerJs.dailyData w samples = Normal out ->
  List.map date out =
  List.firstn 7 (firstOccurrences (List.map (dateOf w) samples)).
Proof.
  intros H. apply Forall2_map_r.
  eapply List.Forall2_impl; [|apply (dailyData_summaries w samples out H)].
  intros k d (b & _ & Hd). eapply summarizes_date; eassumption.
Qed.

(** What the second loop puts into a summary, in terms of the samples
    of the bucket. *)
Lemma summarizes_means w k b B d :
  holds b B -> summarizes w k b d ->
  temperature d = Math_round (double_mean (List.map main_temp B)) /\
  humidity d = Math_round (double_mean (List.map main_humidity B)) /\
  windSpeed d =
    toFixed1 (Number_toString w) (double_mean (List.map wind_speed B)).
Proof.
  intros (Et & Eh & Ew & _) (t & h & s & Ht & Hh & Hs & ->). simpl.
  rewrite (reduce_add_mean _ _ Ht), (reduce_add_mean _ _ Hh),
    (reduce_add_mean _ _ Hs), Et, Eh, Ew.
  repeat split.
Qed.

Lemma Math_round_spec x q :
  exact x = Some q ->
  exists z,
    Math_round x = Some z /\ nearest_ties_up q z /\
    ((0 <= q)%Q -> z = round_half_away_from_zero q).
Proof.
  intros H. exists (Qfloor (q + (1 # 2))%Q).
  split; [now apply Math_round_exact|]. split; [apply Qfloor_half_nearest|].
  intros H0. unfold round_half_away_from_zero.
  destruct (Qlt_le_dec q 0%Q); [exfalso; lra|reflexivity].
Qed.

(** C1, as the code has it.  Every emitted summary belongs to a non-empty
    bucket.  The mean the code works with is the double mean: the doubles
    of the bucket added from left to right and the sum divided by the
    count, in floating-point arithmetic.  When that mean is finite, the
    temperature and the humidity are the integer nearest to its exact
    value, the larger one on a tie ([Math.round]), which is rounding half
    away from zero for a value that is not negative; when it is not
    finite they are [null].  The wind speed, for a finite double mean
    below [10^21] in size, is the sign, a numeral, a point and exactly one
    digit, and reads as the size of the exact value rounded to the nearest
    tenth. *)
Theorem daily_summary_is_rounded_mean w samples out d :
  ServerJs.dailyData w samples = Normal out ->
  In d out ->
  let B := bucketOf w samples (date d) in
  let temp := double_mean (List.map main_temp B) in
  let hum := double_mean (List.map main_humidity B) in
  let speed := double_mean (List.map wind_speed B) in
  B <> [] /\
  (forall q, exact temp = Some q ->
     exists z,
       temperature d = Some z /\ nearest_ties_up q z /\
       ((0 <= q)%Q -> z = round_half_away_from_zero q)) /\
  (forall q, exact hum = Some q ->
     exists z,
       humidity d = Some z /\ nearest_ties_up q z /\
       ((0 <= q)%Q -> z = round_half_away_from_zero q)) /\
  (exact temp = None -> temperature d = None) /\
  (exact hum = None -> humidity d = None) /\
  (forall q, exact speed = Some q ->
     (Qabs q < inject_Z (10 ^ 21))%Q ->
     exists whole digit : N,
       (digit < 10)%N /\ String.length (decimal digit) = 1%nat /\
       windSpeed d =
         ((if Qlt_le_dec q 0%Q then "-" else "")
          ++ decimal whole ++ "." ++ decimal digit)%string /\
       nearest_ties_up (Qabs q * inject_Z 10) (Z.of_N (10 * whole + digit))).
Proof.
  intros Hout Hd.
  destruct (Forall2_In_r _ _ _ _ (dailyData_summaries w samples out Hout) Hd)
    as (k & Hk & b & Hb & Hsum).
  rewrite (summarizes_date _ _ _ _ Hsum). clear Hk Hd Hout.
  destruct (summarizes_means w k b _ d Hb Hsum) as (-> & -> & ->).
  destruct Hb as (_ & _ & _ & item & rest & c & cs & EB & _).
  cbv zeta. set (B := bucketOf w samples k) in *.
  split; [rewrite EB; discriminate|].
  split; [intros q Hq; now apply Math_round_spec|].
  split; [intros q Hq; now apply Math_round_spec|].
  split; [apply Math_round_null|]. split; [apply Math_round_null|].
  intros q Hq Hbig. rewrite (toFixed1_exact _ _ _ Hq).
  destruct (toFixed1_digits
              (Number_toString w
                 (PrimFloat.abs (double_mean (List.map wind_speed B)))) q Hbig)
    as (whole & digit & Hdigit & Hstr & Hval).
  exists whole, digit. split; [assumption|].
  split; [now apply decimal_one_digit|]. split; assumption.
Qed.

Lemma daily_summary_is_rounded_mean_witness :
  let w := IST (fun _ => None) (fun _ => None) 0 no_failure in
  let samples :=
    [ sample 1793661000 10 40 1; sample 1793664600 20 50 2;
      sample 1793668200 21 51 2.2 ] in
  let d := {| date := "3/11/2026"; temperature := Some 17;
              humidity := Some 47; windSpeed := "1.7";
              description := "clear sky"; icon := "01d" |} in
  ServerJs.dailyData w samples = Normal [d] /\
  In d [d] /\
  forall q,
    exact (double_mean (List.map main_temp (bucketOf w samples (date d))))
    = Some q ->
    exists z,
      temperature d = Some z /\ nearest_ties_up q z /\
      ((0 <= q)%Q -> z = round_half_away_from_zero q).
Proof.
  intros w samples d.
  assert (H1 : ServerJs.dailyData w samples = Normal [d])
    by (vm_compute; reflexivity).
  assert (H2 : In d [d]) by (left; reflexivity).
  split; [exact H1|]. split; [exact H2|].
  exact (proj1 (proj2 (daily_summary_is_rounded_mean w samples [d] d H1 H2))).
Defined.

(** C1 as stated fails.  One sample of -2.5 degrees has mean -2.5, in
    doubles as in exact arithmetic; [Math.round] gives -2, rounding half
    away from zero gives -3. *)
Lemma temperature_tie_is_not_rounded_away_from_zero :
  ~ (forall w samples out d qs,
       ServerJs.dailyData w samples = Normal out ->
       In d out ->
       List.map exact (List.map main_temp (bucketOf w samples (date d)))
       = List.map Some qs ->
       temperature d = Some (round_half_away_from_zero (mean qs))).
Proof.
  intros H.
  pose (w := IST (fun _ => None) (fun _ => None) 0 no_failure).
  pose (samples := [ sample 1793661000 (-2.5) 40 1 ]).
  pose (d := {| date := "3/11/2026"; temperature := Some (-2);
                humidity := Some 40; windSpeed := "1.0";
                description := "clear sky"; icon := "01d" |}).
  assert (H1 : ServerJs.dailyData w samples = Normal [d])
    by (vm_compute; reflexivity).
  specialize (H w samples [d] d [ (- 5 # 2)%Q ] H1 (or_introl eq_refl)).
  assert (H2 : List.map exact
                 (List.map main_temp (bucketOf w samples (date d)))
               = List.map Some [ (- 5 # 2)%Q ]).
  { vm_compute. reflexivity. }
  specialize (H H2). vm_compute in H. discriminate H.
Qed.

(** The double mean is not the exact mean.  Temperatures 0.12, 0.95 and
    0.43 have exact mean 0.5, which rounds to 1, and double mean
    0.49999999999999994, which the code rounds to 0; winds 2 and 2.1 have
    double mean 2.0499999999999998, printed "2.0". *)
Example summary_of_inexact_sums :
  let w := IST (fun _ => None) (fun _ => None) 0 no_failure in
  exists d,
    ServerJs.dailyData w
      [ sample 1793661000 0.12 40 2; sample 1793664600 0.95 40 2.1;
        sample 1793668200 0.43 40 2.05 ]
    = Normal [d] /\
    temperature d = Some 0 /\
    ServerJs.dailyData w
      [ sample 1793661000 10 40 2; sample 1793664600 10 40 2.1 ]
    = Normal [ {| date := "3/11/2026"; temperature := Some 10;
                  humidity := Some 40; windSpeed := "2.0";
                  description := "clear sky"; icon := "01d" |} ].
Proof. eexists. repeat split; vm_compute; reflexivity. Qed.

(** C2.  When every sample carries a condition, the aggregator returns;
    the dates of what it returns are the distinct dates of the input in
    order of first occurrence, cut after the seventh; no date comes twice;
    ten distinct dates give exactly seven summaries. *)
Theorem daily_summaries_follow_first_occurrence w samples :
  Forall (fun item => weather item <> []) samples ->
  exists out,
    ServerJs.dailyData w samples = Normal out /\
    List.map date out =
      List.firstn 7 (firstOccurrences (List.map (dateOf w) samples)) /\
    List.NoDup (List.map date out) /\
    (List.length out <= 7)%nat /\
    (List.length (firstOccurrences (List.map (dateOf w) samples)) = 10%nat ->
     List.length out = 7%nat).
Proof.
  intros Hw. destruct (dailyData_total w samples Hw) as (out & Hout).
  pose proof (dailyData_dates w samples out Hout) as Hdates.
  assert (Hlen : List.length out =
                 Nat.min 7 (List.length (firstOccurrences (List.map (dateOf w) samples)))).
  { rewrite <- List.length_firstn, <- Hdates. symmetry. apply List.length_map. }
  exists out. split; [assumption|]. split; [assumption|]. split; [|split].
  - rewrite Hdates. apply NoDup_firstn, firstOccurrences_NoDup.
  - rewrite Hlen. apply Nat.le_min_l.
  - intros H10. rewrite Hlen, H10. reflexivity.
Qed.

Lemma daily_summaries_follow_first_occurrence_witness :
  let w := IST (fun _ => None) (fun _ => None) 0 no_failure in
  Forall (fun item => weather item <> []) ten_days /\
  exists out,
    ServerJs.dailyData w ten_days = Normal out /\
    List.map date out =
      [ "6/11/2026"; "4/11/2026"; "5/11/2026"; "3/11/2026"; "7/11/2026";
        "8/11/2026"; "9/11/2026" ] /\
    List.length out = 7%nat.
Proof.
  intros w.
  assert (Hw : Forall (fun item => weather item <> []) ten_days)
    by (repeat constructor; discriminate).
  split; [exact Hw|].
  destruct (daily_summaries_follow_first_occurrence w ten_days Hw)
    as (out & Hout & Hdates & _ & _ & H10).
  exists out. split; [exact Hout|]. split; [exact Hdates|].
  apply H10. reflexivity.
Defined.

(** C9.  On the empty sample list the aggregator returns the empty list,
    and the forecast route answers 200 with it. *)
Theorem empty_forecast_is_empty w :
  ServerJs.dailyData w [] = Normal [] /\
  forall city st,
    ServerJs.get_api_forecast (answering_forecast w []) city st
    = (Normal (json (Forecast [])), st).
Proof. split; reflexivity. Qed.

(* ===================================================================== *)
(** * The weather route: cache, provider, history                         *)
(* ===================================================================== *)

Section WeatherRoute.

Variable w : World.

Lemma cached_result city st :
  fails w CacheFindOne = false ->
  ServerJs.cached w city st =
  (Normal match WeatherCache st !! toLowerCase city with
          | Some e =>
              if Z.leb (now_lookup w - 10 * 60 * 1000) (cachedAt e)
              then Some e else None
          | None => None
          end, st).
Proof.
  intros H. unfold ServerJs.cached, Db.WeatherCache_findOne, Db.await.
  now rewrite H.
Qed.

(** A cache hit answers from the entry and touches nothing. *)
Lemma get_api_weather_hit city st e :
  ServerJs.cached w city st = (Normal (Some e), st) ->
  ServerJs.get_api_weather w city st = (Normal (json (Weather (data e))), st).
Proof.
  intros H. unfold ServerJs.get_api_weather, try_catch, bind. now rewrite H.
Qed.

(** A miss goes to the provider; each await after the fetch can still
    end the request in the [catch]. *)
Lemma get_api_weather_miss city st :
  ServerJs.cached w city st = (Normal None, st) ->
  ServerJs.get_api_weather w city st =
  match provider_weather w city with
  | None => (Normal city_not_found, st)
  | Some d =>
      if fails w CacheFindOneAndUpdate then (Normal city_not_found, st)
      else
        let st1 := cache_put st (toLowerCase city) d (now_cached w) in
        if fails w HistoryCreate then (Normal city_not_found, st1)
        else if String.eqb (name d) "" then (Normal city_not_found, st1)
        else (Normal (json (Weather d)), history_add w st1 d)
  end.
Proof.
  intros H. unfold ServerJs.get_api_weather, try_catch, bind. rewrite H.
  unfold Db.axios_get_weather.
  destruct (provider_weather w city) as [d|]; [|reflexivity].
  unfold ret, Db.WeatherCache_findOneAndUpdate, Db.SearchHistory_create, Db.await.
  destruct (fails w CacheFindOneAndUpdate); [reflexivity|].
  destruct (fails w HistoryCreate); [reflexivity|].
  cbv zeta. simpl. destruct (String.eqb (name d) ""); reflexivity.
Qed.

End WeatherRoute.

(** C3, as the code has it.  A successful lookup of a stored entry returns
    it exactly when it was cached no longer than ten minutes before the
    lookup, the boundary included; so it is returned 9 min 59 s after it
    was cached and not 10 min 01 s after; and the lookup leaves the store
    as it was, the stale entry included. *)
Theorem cache_entry_returned_within_ten_minutes w city st e :
  fails w CacheFindOne = false ->
  WeatherCache st !! toLowerCase city = Some e ->
  exists r,
    ServerJs.cached w city st = (Normal r, st) /\
    (r = Some e <-> now_lookup w - cachedAt e <= 10 * 60 * 1000) /\
    (r = None <-> 10 * 60 * 1000 < now_lookup w - cachedAt e) /\
    (now_lookup w = cachedAt e + 599000 -> r = Some e) /\
    (now_lookup w = cachedAt e + 601000 -> r = None).
Proof.
  intros Hf He. rewrite (cached_result w city st Hf), He.
  eexists. split; [reflexivity|].
  destruct (Z.leb_spec (now_lookup w - 10 * 60 * 1000) (cachedAt e)).
  - repeat split; try discriminate; intros; try reflexivity; lia.
  - repeat split; try discriminate; intros; try reflexivity; lia.
Qed.

Lemma pune_cached_lookup t :
  WeatherCache (pune_cached_at t) !! toLowerCase "Pune"
  = Some {| data := pune; cachedAt := t |}.
Proof. apply lookup_singleton_eq. Qed.

Lemma cache_entry_returned_within_ten_minutes_witness :
  let w := IST always_pune (fun _ => None) 599000 no_failure in
  let e := {| data := pune; cachedAt := 0 |} in
  fails w CacheFindOne = false /\
  WeatherCache (pune_cached_at 0) !! toLowerCase "Pune" = Some e /\
  ServerJs.cached w "Pune" (pune_cached_at 0) = (Normal (Some e), pune_cached_at 0).
Proof.
  intros w e.
  assert (H1 : fails w CacheFindOne = false) by reflexivity.
  pose proof (pune_cached_lookup 0) as H2.
  split; [exact H1|]. split; [exact H2|].
  destruct (cache_entry_returned_within_ten_minutes w "Pune" (pune_cached_at 0) e H1 H2)
    as (r & Hr & _ & _ & Hfresh & _).
  rewrite Hr. rewrite (Hfresh eq_refl). reflexivity.
Defined.

(** C3 as stated fails on the boundary: an entry cached exactly ten
    minutes before the lookup is returned, though the time passed is not
    below ten minutes. *)
Lemma cache_entry_returned_at_exactly_ten_minutes :
  ~ (forall w city st e,
       fails w CacheFindOne = false ->
       WeatherCache st !! toLowerCase city = Some e ->
       (fst (ServerJs.cached w city st) = Normal (Some e)
        <-> now_lookup w - cachedAt e < 10 * 60 * 1000)).
Proof.
  intros H.
  pose (w := IST always_pune (fun _ => None) 600000 no_failure).
  pose (e := {| data := pune; cachedAt := 0 |}).
  destruct (H w "Pune" (pune_cached_at 0) e eq_refl (pune_cached_lookup 0))
    as [Hlt _].
  assert (Hret : fst (ServerJs.cached w "Pune" (pune_cached_at 0)) = Normal (Some e)).
  { rewrite (cached_result w "Pune" (pune_cached_at 0) eq_refl).
    rewrite pune_cached_lookup. reflexivity. }
  specialize (Hlt Hret). simpl in Hlt. lia.
Qed.

(** C5, as the code has it.  After a miss and a successful fetch of [d]
    the answer is 200 with [d] when the cache update and the history write
    both go through, and 404 "City not found" when either fails. *)
Theorem fetched_weather_needs_both_writes w city st d :
  ServerJs.cached w city st = (Normal None, st) ->
  provider_weather w city = Some d ->
  fst (ServerJs.get_api_weather w city st) =
  Normal (if writes_succeed w d then json (Weather d) else city_not_found).
Proof.
  intros Hmiss Hd. rewrite (get_api_weather_miss w city st Hmiss), Hd.
  unfold writes_succeed.
  destruct (fails w CacheFindOneAndUpdate); [reflexivity|].
  cbv zeta. destruct (fails w HistoryCreate); [reflexivity|].
  destruct (String.eqb (name d) ""); reflexivity.
Qed.

Lemma empty_store_miss w city :
  fails w CacheFindOne = false ->
  ServerJs.cached w city empty_store = (Normal None, empty_store).
Proof.
  intros H. rewrite (cached_result w city empty_store H).
  simpl. now rewrite lookup_empty.
Qed.

Lemma fetched_weather_needs_both_writes_witness :
  let w := IST always_pune (fun _ => None) 0 no_failure in
  ServerJs.cached w "Pune" empty_store = (Normal None, empty_store) /\
  provider_weather w "Pune" = Some pune /\
  fst (ServerJs.get_api_weather w "Pune" empty_store) = Normal (json (Weather pune)).
Proof.
  intros w.
  pose proof (empty_store_miss w "Pune" eq_refl) as H1.
  assert (H2 : provider_weather w "Pune" = Some pune) by reflexivity.
  split; [exact H1|]. split; [exact H2|].
  exact (fetched_weather_needs_both_writes w "Pune" empty_store pune H1 H2).
Defined.

(** C5 as stated fails: the provider answers, the cache update fails, and
    the client gets 404 instead of the payload. *)
Lemma failed_cache_update_hides_fetched_weather :
  ~ (forall w city st d,
       ServerJs.cached w city st = (Normal None, st) ->
       provider_weather w city = Some d ->
       fst (ServerJs.get_api_weather w city st) = Normal (json (Weather d))).
Proof.
  intros H.
  pose (w := IST always_pune (fun _ => None) 0 cache_update_fails).
  specialize (H w "Pune" empty_store pune (empty_store_miss w "Pune" eq_refl) eq_refl).
  rewrite (get_api_weather_miss w "Pune" empty_store
             (empty_store_miss w "Pune" eq_refl)) in H.
  simpl in H. discriminate H.
Qed.

(** C8, as the code has it.  When the cache lookup succeeds: a request
    answered from a fresh entry leaves the whole store as it was; after a
    miss the history gains the record of the fetched payload, once, when
    the fetch and both writes succeed, and stays as it was otherwise. *)
Theorem history_grows_only_after_both_writes w city st :
  fails w CacheFindOne = false ->
  (forall e,
     WeatherCache st !! toLowerCase city = Some e ->
     now_lookup w - cachedAt e <= 10 * 60 * 1000 ->
     ServerJs.get_api_weather w city st = (Normal (json (Weather (data e))), st))
  /\
  (ServerJs.cached w city st = (Normal None, st) ->
   SearchHistory (snd (ServerJs.get_api_weather w city st)) =
   match provider_weather w city with
   | Some d =>
       if writes_succeed w d then SearchHistory st ++ [history_record w d]
       else SearchHistory st
   | None => SearchHistory st
   end).
Proof.
  intros Hf. split.
  - intros e He Hfresh. apply get_api_weather_hit.
    rewrite (cached_result w city st Hf), He.
    destruct (Z.leb_spec (now_lookup w - 10 * 60 * 1000) (cachedAt e));
      [reflexivity|lia].
  - intros Hmiss. rewrite (get_api_weather_miss w city st Hmiss).
    destruct (provider_weather w city) as [d|]; [|reflexivity].
    unfold writes_succeed.
    destruct (fails w CacheFindOneAndUpdate); [reflexivity|].
    cbv zeta. destruct (fails w HistoryCreate); [reflexivity|].
    destruct (String.eqb (name d) ""); reflexivity.
Qed.

Lemma history_grows_only_after_both_writes_witness :
  let w := IST always_pune (fun _ => None) 599000 no_failure in
  fails w CacheFindOne = false /\
  ServerJs.get_api_weather w "Pune" (pune_cached_at 0)
  = (Normal (json (Weather pune)), pune_cached_at 0).
Proof.
  intros w.
  assert (H1 : fails w CacheFindOne = false) by reflexivity.
  split; [exact H1|].
  refine (proj1 (history_grows_only_after_both_writes w "Pune" (pune_cached_at 0) H1)
            {| data := pune; cachedAt := 0 |} (pune_cached_lookup 0) _).
  simpl. lia.
Defined.

(** C8 as stated fails: the provider answers, the cache update fails, and
    no history record is written for that fetch. *)
Lemma fetch_without_history_record :
  ~ (forall w city st d,
       ServerJs.cached w city st = (Normal None, st) ->
       provider_weather w city = Some d ->
       SearchHistory (snd (ServerJs.get_api_weather w city st))
       = SearchHistory st ++ [history_record w d]).
Proof.
  intros H.
  pose (w := IST always_pune (fun _ => None) 0 cache_update_fails).
  specialize (H w "Pune" empty_store pune (empty_store_miss w "Pune" eq_refl) eq_refl).
  rewrite (get_api_weather_miss w "Pune" empty_store
             (empty_store_miss w "Pune" eq_refl)) in H.
  simpl in H. discriminate H.
Qed.

(* ===================================================================== *)
(** * The history route                                                   *)
(* ===================================================================== *)

Section History.

Lemma filter_twice {A} (P Q R : A -> bool) l :
  (forall x, R x = (Q x && P x)%bool) ->
  List.filter R l = List.filter P (List.filter Q l).
Proof.
  intros H. induction l as [|x l IH]; simpl; [reflexivity|].
  rewrite H. destruct (Q x); simpl; [|assumption].
  destruct (P x); now rewrite IH.
Qed.

(** The loop over [history] with its [seen] set keeps, of the records
    whose city is not yet seen, the first of each city. *)
Lemma keep_unseen_fold h : forall acc (seen : gset string),
  fst (List.fold_left ServerJs.keep_unseen h (acc, seen)) =
  acc ++ List.filter
           (fun r => negb (bool_decide (toLowerCase (city r) ∈ seen)))
           (firstByCity h).
Proof.
  induction h as [|a h IH]; intros acc seen; simpl.
  - now rewrite app_nil_r.
  - destruct (decide (toLowerCase (city a) ∈ seen)) as [Hin|Hnin].
    + rewrite IH, bool_decide_true by assumption. simpl. f_equal.
      apply filter_twice. intros x.
      destruct (String.eqb_spec (toLowerCase (city x)) (toLowerCase (city a)))
        as [->|]; simpl; [|reflexivity].
      now rewrite bool_decide_true.
    + rewrite IH, bool_decide_false by assumption. simpl.
      rewrite <- app_assoc. simpl. do 2 f_equal.
      apply filter_twice. intros x.
      destruct (String.eqb_spec (toLowerCase (city x)) (toLowerCase (city a)))
        as [->|Hne]; simpl.
      * rewrite bool_decide_true by set_solver. reflexivity.
      * f_equal. apply bool_decide_ext.
        rewrite elem_of_union, elem_of_singleton. tauto.
Qed.

Lemma uniqueHistory_firstByCity h : ServerJs.uniqueHistory h = firstByCity h.
Proof.
  unfold ServerJs.uniqueHistory. rewrite keep_unseen_fold. simpl.
  apply forallb_filter_id. apply forallb_forall. intros x _.
  rewrite bool_decide_false by set_solver. reflexivity.
Qed.

Lemma firstByCity_length h : (List.length (firstByCity h) <= List.length h)%nat.
Proof.
  induction h as [|a h IH]; simpl; [lia|].
  pose proof (List.filter_length_le
    (fun r' => negb (String.eqb (toLowerCase (city r')) (toLowerCase (city a))))
    (firstByCity h)). lia.
Qed.

Lemma insert_desc_perm r l : Permutation (Db.insert_desc r l) (r :: l).
Proof.
  induction l as [|r' l IH]; simpl; [reflexivity|].
  destruct (Z.leb _ _); [reflexivity|].
  rewrite IH. apply perm_swap.
Qed.

Lemma sort_desc_perm l : Permutation (Db.sort_desc l) l.
Proof.
  induction l as [|r l IH]; simpl; [reflexivity|].
  rewrite insert_desc_perm. now constructor.
Qed.

Lemma insert_desc_sorted r l :
  StronglySorted newer_or_equal l ->
  StronglySorted newer_or_equal (Db.insert_desc r l).
Proof.
  induction 1 as [|r' l Hl IH Hr']; simpl.
  - repeat constructor.
  - destruct (Z.leb_spec (searchedAt r') (searchedAt r)) as [Hle|Hgt].
    + constructor; [now constructor|].
      constructor; [exact Hle|].
      eapply List.Forall_impl; [|exact Hr'].
      unfold newer_or_equal. intros x Hx. lia.
    + constructor; [assumption|].
      eapply Permutation_Forall; [symmetry; apply insert_desc_perm|].
      constructor; [unfold newer_or_equal; lia|assumption].
Qed.

Lemma sort_desc_sorted l : StronglySorted newer_or_equal (Db.sort_desc l).
Proof.
  induction l as [|r l IH]; simpl; [constructor|].
  now apply insert_desc_sorted.
Qed.

End History.

Example history_query_failure_is_500 :
  ServerJs.get_api_history
    (IST always_pune (fun _ => None) 0 history_find_fails) four_searches
  = (Normal (status_json 500 (Message "Error fetching history")), four_searches).
Proof. reflexivity. Qed.

Example four_searches_listed :
  exists out,
    ServerJs.get_api_history
      (IST always_pune (fun _ => None) 0 no_failure) four_searches
    = (Normal (json (History out)), four_searches) /\
    List.map city out = [ "Pune"; "Mumbai"; "Delhi" ].
Proof. eexists. split; reflexivity. Qed.

(** C4.  When the history query succeeds, the route answers 200 with the
    stored records sorted newest first, cut to the first ten, and then
    reduced to the first record of each lowercased city; at most ten
    records come back; Pune, Mumbai, Pune, Delhi become Pune, Mumbai,
    Delhi. *)
Theorem recent_history_is_limited_then_deduplicated w st :
  fails w HistoryFind = false ->
  exists sorted,
    Permutation sorted (SearchHistory st) /\
    StronglySorted newer_or_equal sorted /\
    let limited := List.map Db.select_city_searchedAt (List.firstn 10 sorted) in
    ServerJs.get_api_history w st
    = (Normal (json (History (firstByCity limited))), st) /\
    (List.length (firstByCity limited) <= 10)%nat /\
    forall t1 t2 t3 t4,
      List.map city
        (ServerJs.uniqueHistory
           [ searched "Pune" t1; searched "Mumbai" t2; searched "Pune" t3;
             searched "Delhi" t4 ])
      = [ "Pune"; "Mumbai"; "Delhi" ].
Proof.
  intros Hf. exists (Db.sort_desc (SearchHistory st)).
  split; [apply sort_desc_perm|]. split; [apply sort_desc_sorted|].
  cbv zeta. split; [|split].
  - unfold ServerJs.get_api_history, try_catch, bind,
      Db.SearchHistory_find_recent, Db.await.
    rewrite Hf. unfold ret. now rewrite uniqueHistory_firstByCity.
  - etransitivity; [apply firstByCity_length|].
    rewrite List.length_map. apply List.firstn_le_length.
  - intros t1 t2 t3 t4. rewrite uniqueHistory_firstByCity. reflexivity.
Qed.

Lemma recent_history_is_limited_then_deduplicated_witness :
  let w := IST always_pune (fun _ => None) 0 no_failure in
  fails w HistoryFind = false /\
  exists out,
    ServerJs.get_api_history w four_searches
    = (Normal (json (History out)), four_searches) /\
    (List.length out <= 10)%nat.
Proof.
  intros w.
  assert (H1 : fails w HistoryFind = false) by reflexivity.
  split; [exact H1|].
  destruct (recent_history_is_limited_then_deduplicated w four_searches H1)
    as (sorted & _ & _ & Hrun & Hlen & _).
  eexists. split; [exact Hrun|exact Hlen].
Defined.

(* ===================================================================== *)
(** * City search, the request boundary and the two files                 *)
(* ===================================================================== *)

Section Search.

Lemma filter_sublist {A} (P : A -> bool) l : List.filter P l `sublist_of` l.
Proof.
  induction l as [|x l IH]; simpl; [constructor|].
  destruct (P x); now constructor.
Qed.

Lemma firstn_sublist {A} n : forall l : list A, List.firstn n l `sublist_of` l.
Proof.
  induction n as [|n IH]; intros [|x l]; simpl; try constructor.
  - apply sublist_nil_l.
  - apply IH.
Qed.

Lemma firstn_short {A} n (l : list A) :
  (List.length (List.firstn n l) < n)%nat -> List.skipn n l = [].
Proof.
  rewrite List.length_firstn. intros H. apply List.skipn_all2. lia.
Qed.

End Search.

(** C7, as the code has it.  For every query the search returns at most
    five names; they are the first five matches of the static list, in the
    list's order; upper and lower case in the query make no difference;
    the empty query returns the first five names of the list; a query of
    one space is matched like any other text and finds "Navi Mumbai"
    only. *)
Theorem city_search_returns_first_five_matches q :
  let out := ServerJs.filtered q in
  (List.length out <= 5)%nat /\
  out `sublist_of` ServerJs.indianCities /\
  (forall c, In c out -> matches q c = true) /\
  (exists rest,
     List.filter (matches q) ServerJs.indianCities = out ++ rest /\
     ((List.length out < 5)%nat -> rest = [])) /\
  (forall q', toLowerCase q' = toLowerCase q -> ServerJs.filtered q' = out) /\
  (forall w st,
     ServerJs.app w (GET_api_cities_search (Some q)) st
     = (Normal (json (Cities out)), st)) /\
  ServerJs.filtered "" = List.firstn 5 ServerJs.indianCities /\
  ServerJs.filtered " " = [ "Navi Mumbai" ].
Proof.
  cbv zeta. unfold ServerJs.filtered, slice0. fold (matches q).
  change (fun city => includes (toLowerCase city) (toLowerCase q))
    with (matches q).
  split; [apply List.firstn_le_length|].
  split; [etransitivity; [apply firstn_sublist|apply filter_sublist]|].
  split; [intros c Hc; apply firstn_In in Hc; now apply filter_In in Hc|].
  split.
  { exists (List.skipn 5 (List.filter (matches q) ServerJs.indianCities)).
    split; [symmetry; apply List.firstn_skipn|apply firstn_short]. }
  split; [intros q' Hq'; now rewrite Hq'|].
  split; [reflexivity|]. split; vm_compute; reflexivity.
Qed.

(** C7 as stated fails for a query of one space: it does not return the
    first five names of the list. *)
Lemma space_query_is_matched_literally :
  ~ (forall q, spaces_only q = true ->
       ServerJs.filtered q = List.firstn 5 ServerJs.indianCities).
Proof.
  intros H. specialize (H " " eq_refl). vm_compute in H. discriminate H.
Qed.

Lemma try_catch_answers (m : M Response) (r : Response) st :
  exists resp, fst (try_catch m (fun _ => ret r) st) = Normal resp.
Proof.
  unfold try_catch, ret. destruct (m st) as [[resp|e] st']; eauto.
Qed.

(** C6 at its failing input.  A search request without [q] throws a
    [TypeError] that no handler catches; every other request is answered
    with a JSON response. *)
Theorem city_search_without_query_throws w st :
  ServerJs.app w (GET_api_cities_search None) st = (Throw TypeError, st) /\
  forall r,
    r = GET_api_cities_search None \/
    exists resp, fst (ServerJs.app w r st) = Normal resp.
Proof.
  split; [reflexivity|].
  intros [|city|city| | |[q|]]; [right..|left; reflexivity]; simpl.
  - eexists; reflexivity.
  - apply try_catch_answers.
  - apply try_catch_answers.
  - apply try_catch_answers.
  - apply try_catch_answers.
  - eexists; reflexivity.
Qed.

(** C10, as the code has it.  The two files answer alike on every request
    but a city search that carries a query. *)
Theorem files_agree_except_on_city_search w r st :
  (forall q, r <> GET_api_cities_search (Some q)) ->
  ServerJs.app w r st = Part000.app w r st.
Proof.
  intros Hr. destruct r as [|city|city| | |[q|]].
  - reflexivity.
  - reflexivity.
  - reflexivity.
  - reflexivity.
  - reflexivity.
  - now destruct (Hr q).
  - reflexivity.
Qed.

Lemma files_agree_except_on_city_search_witness :
  let w := IST always_pune (fun _ => None) 0 no_failure in
  (forall q, GET_api_weather "Pune" <> GET_api_cities_search (Some q)) /\
  ServerJs.app w (GET_api_weather "Pune") empty_store
  = Part000.app w (GET_api_weather "Pune") empty_store.
Proof.
  intros w.
  assert (H : forall q, GET_api_weather "Pune" <> GET_api_cities_search (Some q))
    by (intros q; discriminate).
  split; [exact H|].
  exact (files_agree_except_on_city_search w (GET_api_weather "Pune") empty_store H).
Defined.

(** C10 as stated fails: "Pimpri-Chinchwad" is in the list of
    [src/server.js] and not in the list of [src/unnamed/part_000]. *)
Lemma files_differ_on_city_search :
  ~ (forall w r st, ServerJs.app w r st = Part000.app w r st).
Proof.
  intros H.
  specialize (H (IST always_pune (fun _ => None) 0 no_failure)
                (GET_api_cities_search (Some "pimpri")) empty_store).
  vm_compute in H. discriminate H.
Qed.

(* ===================================================================== *)
(** * More on the forecast route                                          *)
(* ===================================================================== *)

Section ForecastFailure.

Variable w : World.

Lemma grouped_after_getOwn_None p grouped k :
  grouped_after w p grouped ->
  getOwn grouped k = None <-> ~ In k (List.map (dateOf w) p).
Proof.
  intros [Hkeys _]. rewrite getOwn_None_keys, Hkeys, firstOccurrences_In.
  reflexivity.
Qed.

(** One step of the first loop throws exactly on a new date without a
    condition. *)
Lemma group_item_outcome p grouped x :
  grouped_after w p grouped ->
  (ServerJs.group_item w grouped x = Throw TypeError /\
   ~ In (dateOf w x) (List.map (dateOf w) p) /\ weather x = [])
  \/
  (exists grouped', ServerJs.group_item w grouped x = Normal grouped' /\
   (In (dateOf w x) (List.map (dateOf w) p) \/ weather x <> [])).
Proof.
  intros Hg. unfold ServerJs.group_item. fold (dateOf w x).
  destruct (getOwn grouped (dateOf w x)) as [b|] eqn:E.
  - right. eexists. split; [reflexivity|]. left.
    destruct (in_dec string_dec (dateOf w x) (List.map (dateOf w) p)) as [|Hn];
      [assumption|].
    apply (grouped_after_getOwn_None _ _ _ Hg) in Hn. congruence.
  - apply (grouped_after_getOwn_None _ _ _ Hg) in E.
    assert (Hi : inherited (dateOf w x) = false)
      by apply toLocaleDateString_not_inherited.
    rewrite Hi.
    destruct (weather x) as [|c cs] eqn:Ew.
    + left. auto.
    + right. eexists. split; [reflexivity|]. right. discriminate.
Qed.

Lemma group_items_throw samples : forall p0 grouped,
  grouped_after w p0 grouped ->
  (exists e, forEach (ServerJs.group_item w) samples grouped = Throw e) <->
  (exists p x rest,
     samples = p ++ x :: rest /\
     ~ In (dateOf w x) (List.map (dateOf w) (p0 ++ p)) /\
     weather x = []).
Proof.
  induction samples as [|a samples IH]; intros p0 g Hg; simpl.
  - split; [intros [e He]; discriminate|].
    intros (p & x & rest & H & _). now destruct p.
  - destruct (group_item_outcome p0 g a Hg) as [(Ht & Hnew & Hw)|(g1 & Hn & Hold)].
    + rewrite Ht. split; [intros _|eauto].
      exists [], a, samples. rewrite app_nil_r. auto.
    + rewrite Hn.
      rewrite (IH (p0 ++ [a]) g1 (group_item_step w p0 g a g1 Hg Hn)).
      split.
      * intros (p & x & rest & -> & Hx & Hw).
        exists (a :: p), x, rest. rewrite <- app_assoc in Hx. auto.
      * intros (p & x & rest & Hl & Hx & Hw).
        destruct p as [|a' p]; simpl in Hl; injection Hl as -> ->.
        -- rewrite app_nil_r in Hx. destruct Hold; contradiction.
        -- exists p, x, rest. rewrite <- app_assoc. auto.
Qed.

(** The aggregator throws exactly when some sample that opens a date has
    an empty [weather]; otherwise it returns. *)
Lemma dailyData_throws samples :
  (exists e, ServerJs.dailyData w samples = Throw e) <->
  opens_date_without_condition w samples.
Proof.
  unfold opens_date_without_condition.
  rewrite <- (group_items_throw samples [] [] (grouped_after_nil w)).
  destruct (forEach (ServerJs.group_item w) samples []) as [g|e] eqn:E.
  - destruct (dailyData_grouped w samples g E) as (out & Hout & _).
    rewrite Hout. split; intros [e He]; discriminate.
  - unfold ServerJs.dailyData. rewrite E. split; eauto.
Qed.

Lemma dailyData_returns samples :
  ~ opens_date_without_condition w samples ->
  exists out, ServerJs.dailyData w samples = Normal out.
Proof.
  intros H. destruct (ServerJs.dailyData w samples) as [out|e] eqn:E; [eauto|].
  exfalso. apply H, dailyData_throws. eauto.
Qed.

End ForecastFailure.

(** X1.  The forecast route never changes the store.  It answers 404
    "Forecast data not available" exactly when the provider fails or some
    sample that opens a new date has no weather condition; in every other
    case it answers 200 with the aggregated list. *)
Theorem forecast_route_answers w city st :
  snd (ServerJs.get_api_forecast w city st) = st /\
  (fst (ServerJs.get_api_forecast w city st) = Normal forecast_not_available
   <-> provider_forecast w city = None \/
       exists samples, provider_forecast w city = Some samples /\
                       opens_date_without_condition w samples) /\
  (forall samples,
     provider_forecast w city = Some samples ->
     ~ opens_date_without_condition w samples ->
     exists out,
       ServerJs.dailyData w samples = Normal out /\
       fst (ServerJs.get_api_forecast w city st) = Normal (json (Forecast out))).
Proof.
  unfold ServerJs.get_api_forecast, try_catch, bind, Db.axios_get_forecast.
  destruct (provider_forecast w city) as [samples|] eqn:Ep; simpl.
  - unfold lift.
    destruct (ServerJs.dailyData w samples) as [out|e] eqn:E; simpl.
    + split; [reflexivity|]. split.
      * split; [discriminate|].
        intros [H|(s' & [= <-] & H)]; [discriminate|].
        apply dailyData_throws in H as [e He]. congruence.
      * intros s' [= <-] _. eauto.
    + split; [reflexivity|]. split.
      * split; [|reflexivity]. intros _. right. exists samples.
        split; [reflexivity|]. apply dailyData_throws. eauto.
      * intros s' [= <-] H. exfalso. apply H, dailyData_throws. eauto.
  - split; [reflexivity|]. split.
    + split; [auto|reflexivity].
    + intros s' H. discriminate H.
Qed.

(** X2.  Every emitted summary takes its description and icon from the
    first weather condition of the first sample of its date; what the
    later samples of that date say about the weather is not used. *)
Theorem summary_condition_is_first_sample w samples out d :
  ServerJs.dailyData w samples = Normal out ->
  In d out ->
  exists item rest c cs,
    bucketOf w samples (date d) = item :: rest /\
    weather item = c :: cs /\
    description d = w_description c /\
    icon d = w_icon c.
Proof.
  intros Hout Hd.
  destruct (Forall2_In_r _ _ _ _ (dailyData_summaries w samples out Hout) Hd)
    as (k & _ & b & Hb & Hsum).
  rewrite (summarizes_date _ _ _ _ Hsum).
  destruct Hsum as (t & h & s & _ & _ & _ & ->).
  destruct Hb as (_ & _ & _ & item & rest & c & cs & HB & Hc & Hdesc & Hicon).
  exists item, rest, c, cs. auto.
Qed.

Lemma summary_condition_is_first_sample_witness :
  let w := IST (fun _ => None) (fun _ => None) 0 no_failure in
  let late := {| dt := 1793664600; main_temp := 20; main_humidity := 50;
                 wind_speed := 2;
                 weather := [ {| w_description := "rain"; w_icon := "10d" |} ] |} in
  let samples := [ sample 1793661000 10 40 1; late ] in
  let d := {| date := "3/11/2026"; temperature := Some 15;
              humidity := Some 45; windSpeed := "1.5";
              description := "clear sky"; icon := "01d" |} in
  ServerJs.dailyData w samples = Normal [d] /\
  In d [d] /\
  exists item rest c cs,
    bucketOf w samples (date d) = item :: rest /\
    weather item = c :: cs /\
    description d = w_description c /\
    icon d = w_icon c.
Proof.
  intros w late samples d.
  assert (H1 : ServerJs.dailyData w samples = Normal [d])
    by (vm_compute; reflexivity).
  assert (H2 : In d [d]) by (left; reflexivity).
  split; [exact H1|]. split; [exact H2|].
  exact (summary_condition_is_first_sample w samples [d] d H1 H2).
Defined.

Example forecast_of_bare_opener_is_404 :
  let w := IST (fun _ => None)
               (fun _ => Some [ bare_sample 1793661000 ]) 0 no_failure in
  ServerJs.get_api_forecast w "Pune" empty_store
  = (Normal forecast_not_available, empty_store).
Proof. reflexivity. Qed.

Example forecast_with_bare_follower_is_200 :
  let w := IST (fun _ => None)
               (fun _ => Some [ sample 1793661000 10 40 1;
                                bare_sample 1793664600 ]) 0 no_failure in
  exists out,
    ServerJs.get_api_forecast w "Pune" empty_store
    = (Normal (json (Forecast out)), empty_store)
    /\ List.map temperature out = [ Some 18 ].
Proof. eexists. split; vm_compute; reflexivity. Qed.

Section ForecastDependence.

Variable w : World.

Lemma holds_unique b b' B : holds b B -> holds b' B -> b = b'.
Proof.
  intros (Ht & Hh & Hw & item & rest & c & cs & HB & Hc & Hd & Hi)
         (Ht' & Hh' & Hw' & item' & rest' & c' & cs' & HB' & Hc' & Hd' & Hi').
  rewrite HB in HB'. injection HB' as <- <-.
  rewrite Hc in Hc'. injection Hc' as <- <-.
  destruct b, b'. simpl in *. congruence.
Qed.

Lemma summarizes_unique k b d d' :
  summarizes w k b d -> summarizes w k b d' -> d = d'.
Proof.
  intros (t & h & s & Ht & Hh & Hs & ->) (t' & h' & s' & Ht' & Hh' & Hs' & ->).
  congruence.
Qed.

Lemma summaries_unique (B B' : string -> list RawSample) ks : forall o o',
  (forall k, In k ks -> B k = B' k) ->
  List.Forall2 (fun k d => exists b, holds b (B k) /\ summarizes w k b d) ks o ->
  List.Forall2 (fun k d => exists b, holds b (B' k) /\ summarizes w k b d) ks o' ->
  o = o'.
Proof.
  induction ks as [|k ks IH]; intros o o' HB Ho Ho';
    inversion Ho as [|? d ? o1 (b & Hb & Hd) Ho1]; subst;
    inversion Ho' as [|? d' ? o1' (b' & Hb' & Hd') Ho1']; subst;
    [reflexivity|].
  rewrite <- (HB k (or_introl eq_refl)) in Hb'.
  rewrite <- (holds_unique _ _ _ Hb Hb') in Hd'.
  f_equal; [eapply summarizes_unique; eassumption|].
  apply IH; [|assumption..]. intros k' Hk'. apply HB. now right.
Qed.

End ForecastDependence.

Lemma conditions_everywhere w samples :
  Forall (fun item => weather item <> []) samples ->
  ~ opens_date_without_condition w samples.
Proof.
  intros Hw (p & x & rest & -> & _ & Hx).
  apply Forall_app in Hw as [_ Hw]. apply Forall_cons_iff in Hw as [Hw _].
  contradiction.
Qed.

(** X3.  Among the sample lists on which the aggregator returns, the
    answer depends on nothing but the samples of the first seven dates:
    when the aggregator returns [out] on one list, it returns the same
    [out] on every list that has the same first seven dates in the same
    order and the same samples on each of these dates, and in which no
    sample that opens a date lacks a weather condition.  (A sample that
    opens a date without a condition, be it an eighth date, makes the
    aggregator throw.) *)
Theorem forecast_depends_on_first_seven_dates w samples samples' out :
  ServerJs.dailyData w samples = Normal out ->
  List.firstn 7 (firstOccurrences (List.map (dateOf w) samples))
  = List.firstn 7 (firstOccurrences (List.map (dateOf w) samples')) ->
  (forall k,
     In k (List.firstn 7 (firstOccurrences (List.map (dateOf w) samples))) ->
     bucketOf w samples k = bucketOf w samples' k) ->
  ~ opens_date_without_condition w samples' ->
  ServerJs.dailyData w samples' = Normal out.
Proof.
  intros Ho Hdates Hbuckets Hcond.
  destruct (dailyData_returns w samples' Hcond) as (out' & Ho').
  rewrite Ho'. f_equal. symmetry.
  pose proof (dailyData_summaries w samples out Ho) as H.
  pose proof (dailyData_summaries w samples' out' Ho') as H'.
  rewrite <- Hdates in H'.
  eapply summaries_unique; eassumption.
Qed.

Lemma forecast_depends_on_first_seven_dates_witness :
  let w := IST (fun _ => None) (fun _ => None) 0 no_failure in
  exists out,
    ServerJs.dailyData w (List.firstn 7 ten_days) = Normal out /\
    ~ opens_date_without_condition w ten_days /\
    ServerJs.dailyData w ten_days = Normal out.
Proof.
  intros w. eexists.
  assert (Hc : ~ opens_date_without_condition w ten_days).
  { apply conditions_everywhere. repeat constructor; discriminate. }
  split; [vm_compute; reflexivity|]. split; [exact Hc|].
  refine (forecast_depends_on_first_seven_dates w (List.firstn 7 ten_days)
            ten_days _ _ _ _ Hc).
  - vm_compute; reflexivity.
  - vm_compute; reflexivity.
  - intros k Hk. vm_compute in Hk.
    repeat (destruct Hk as [<-|Hk]; [vm_compute; reflexivity|]).
    contradiction.
Defined.

(** The condition cannot be dropped: an eighth date opened without a
    weather condition turns the answer into a throw, though the first
    seven dates and their samples are the same. *)
Example bare_eighth_date_throws :
  let w := IST (fun _ => None) (fun _ => None) 0 no_failure in
  let early := List.firstn 7 ten_days in
  (exists out, ServerJs.dailyData w early = Normal out) /\
  ServerJs.dailyData w (early ++ [ bare_sample (1793661000 + 86400 * 20) ])
  = Throw TypeError.
Proof. split; [eexists|]; vm_compute; reflexivity. Qed.

(* ===================================================================== *)
(** * More on the weather route                                           *)
(* ===================================================================== *)

Section WeatherStore.

Variable w : World.

Lemma cached_outcome city st :
  ServerJs.cached w city st = (Throw MongoError, st) /\ fails w CacheFindOne = true
  \/ exists r, ServerJs.cached w city st = (Normal r, st).
Proof.
  destruct (fails w CacheFindOne) eqn:Hf.
  - left. unfold ServerJs.cached, Db.WeatherCache_findOne, Db.await.
    now rewrite Hf.
  - right. rewrite (cached_result w city st Hf). eauto.
Qed.

Lemma get_api_weather_lookup_failure city st :
  fails w CacheFindOne = true ->
  ServerJs.get_api_weather w city st = (Normal city_not_found, st).
Proof.
  intros Hf.
  unfold ServerJs.get_api_weather, try_catch, bind, ServerJs.cached,
    Db.WeatherCache_findOne, Db.await.
  now rewrite Hf.
Qed.

(** The store a weather request leaves: the old one, the old one with the
    fetched payload cached, or that with the history record added. *)
Lemma get_api_weather_store city st :
  let st' := snd (ServerJs.get_api_weather w city st) in
  st' = st \/
  exists d,
    provider_weather w city = Some d /\
    (st' = cache_put st (toLowerCase city) d (now_cached w) \/
     st' = history_add w (cache_put st (toLowerCase city) d (now_cached w)) d).
Proof.
  cbv zeta.
  destruct (cached_outcome city st) as [[_ Hf]|[[e|] Hr]].
  - left. now rewrite (get_api_weather_lookup_failure city st Hf).
  - left. now rewrite (get_api_weather_hit w city st e Hr).
  - rewrite (get_api_weather_miss w city st Hr).
    destruct (provider_weather w city) as [d|]; [|now left].
    destruct (fails w CacheFindOneAndUpdate); [now left|].
    cbv zeta. right. exists d. split; [reflexivity|].
    destruct (fails w HistoryCreate); [now left|].
    destruct (String.eqb (name d) ""); [now left|now right].
Qed.

End WeatherStore.

(** X4.  What a request has fetched and cached is served to the next
    request: after a miss, a successful fetch of [d] and a successful
    cache update, a request for the same city in any casing whose lookup
    comes no later than ten minutes after the update is answered 200 with
    [d], whatever the provider would say now, and leaves the store as it
    found it. *)
Theorem cached_payload_is_served_again w w' city city' st d :
  ServerJs.cached w city st = (Normal None, st) ->
  provider_weather w city = Some d ->
  fails w CacheFindOneAndUpdate = false ->
  fails w' CacheFindOne = false ->
  toLowerCase city' = toLowerCase city ->
  now_lookup w' - now_cached w <= 10 * 60 * 1000 ->
  let st1 := snd (ServerJs.get_api_weather w city st) in
  ServerJs.get_api_weather w' city' st1 = (Normal (json (Weather d)), st1).
Proof.
  intros Hmiss Hd Hup Hf' Hcity Hnow. cbv zeta.
  set (e := {| data := d; cachedAt := now_cached w |}).
  assert (He : WeatherCache (snd (ServerJs.get_api_weather w city st))
               !! toLowerCase city' = Some e).
  { rewrite (get_api_weather_miss w city st Hmiss), Hd, Hup, Hcity. cbv zeta.
    destruct (fails w HistoryCreate); [apply lookup_insert_eq|].
    destruct (String.eqb (name d) ""); apply lookup_insert_eq. }
  change d with (data e). apply get_api_weather_hit.
  rewrite (cached_result w' city' _ Hf'), He.
  destruct (Z.leb_spec (now_lookup w' - 10 * 60 * 1000) (cachedAt e));
    [reflexivity|simpl in *; lia].
Qed.

Lemma cached_payload_is_served_again_witness :
  let w := IST always_pune (fun _ => None) 0 no_failure in
  let w' := IST (fun _ => None) (fun _ => None) 600000 no_failure in
  let st1 := snd (ServerJs.get_api_weather w "Pune" empty_store) in
  ServerJs.cached w "Pune" empty_store = (Normal None, empty_store) /\
  ServerJs.get_api_weather w' "PUNE" st1 = (Normal (json (Weather pune)), st1).
Proof.
  intros w w' st1.
  pose proof (empty_store_miss w "Pune" eq_refl) as H1.
  split; [exact H1|].
  refine (cached_payload_is_served_again w w' "Pune" "PUNE" empty_store pune
            H1 eq_refl eq_refl eq_refl eq_refl _).
  simpl. lia.
Defined.

(** X5.  A failing history write turns the answer into 404 after the
    payload has been cached: after a miss, a successful fetch of [d] and a
    successful cache update, when the history write fails (or [d] has an
    empty name) the client gets 404 "City not found", the cache holds [d]
    under the lowercased city, and the history is as before. *)
Theorem history_failure_leaves_payload_cached w city st d :
  ServerJs.cached w city st = (Normal None, st) ->
  provider_weather w city = Some d ->
  fails w CacheFindOneAndUpdate = false ->
  writes_succeed w d = false ->
  let st' := snd (ServerJs.get_api_weather w city st) in
  fst (ServerJs.get_api_weather w city st) = Normal city_not_found /\
  WeatherCache st' !! toLowerCase city
    = Some {| data := d; cachedAt := now_cached w |} /\
  SearchHistory st' = SearchHistory st.
Proof.
  intros Hmiss Hd Hup Hw. cbv zeta.
  rewrite (get_api_weather_miss w city st Hmiss), Hd, Hup. cbv zeta.
  unfold writes_succeed in Hw. rewrite Hup in Hw. simpl in Hw.
  destruct (fails w HistoryCreate);
    [repeat split; apply lookup_insert_eq|].
  destruct (String.eqb (name d) ""); [|discriminate Hw].
  repeat split; apply lookup_insert_eq.
Qed.

Lemma history_failure_leaves_payload_cached_witness :
  let w := IST always_pune (fun _ => None) 0 history_create_fails in
  ServerJs.cached w "Pune" empty_store = (Normal None, empty_store) /\
  fst (ServerJs.get_api_weather w "Pune" empty_store) = Normal city_not_found /\
  WeatherCache (snd (ServerJs.get_api_weather w "Pune" empty_store)) !! "pune"
    = Some {| data := pune; cachedAt := 0 |}.
Proof.
  intros w.
  pose proof (empty_store_miss w "Pune" eq_refl) as H1.
  split; [exact H1|].
  destruct (history_failure_leaves_payload_cached w "Pune" empty_store pune
              H1 eq_refl eq_refl eq_refl) as (Hr & Hc & _).
  split; [exact Hr|exact Hc].
Defined.

(** X6.  A weather request touches one cache key and only adds to the
    history: the cache entries of all other cities stay as they are, an
    entry of the requested city is replaced but never removed, and the
    history keeps all its records in place, with at most one new record
    at the end. *)
Theorem weather_route_touches_one_city w city st :
  let st' := snd (ServerJs.get_api_weather w city st) in
  (forall c, c <> toLowerCase city ->
     WeatherCache st' !! c = WeatherCache st !! c) /\
  (is_Some (WeatherCache st !! toLowerCase city) ->
   is_Some (WeatherCache st' !! toLowerCase city)) /\
  exists added,
    SearchHistory st' = SearchHistory st ++ added /\
    (List.length added <= 1)%nat.
Proof.
  cbv zeta.
  destruct (get_api_weather_store w city st) as [->|(d & _ & [->| ->])]; simpl.
  - split; [reflexivity|]. split; [auto|].
    exists []. split; [now rewrite app_nil_r|simpl; lia].
  - split; [intros c Hc; now apply lookup_insert_ne|].
    split; [intros _; rewrite lookup_insert_eq; eauto|].
    exists []. split; [now rewrite app_nil_r|simpl; lia].
  - split; [intros c Hc; now apply lookup_insert_ne|].
    split; [intros _; rewrite lookup_insert_eq; eauto|].
    eexists. split; [reflexivity|simpl; lia].
Qed.

(** X7.  A request that fails before its first write changes nothing:
    when the cache query fails, or after a miss the provider fails or the
    cache update fails, the answer is 404 "City not found" and the store
    is as before. *)
Theorem early_failure_leaves_store_untouched w city st :
  fails w CacheFindOne = true
  \/ (ServerJs.cached w city st = (Normal None, st) /\
      (provider_weather w city = None \/ fails w CacheFindOneAndUpdate = true)) ->
  ServerJs.get_api_weather w city st = (Normal city_not_found, st).
Proof.
  intros [Hf|[Hmiss Hfail]].
  - now apply get_api_weather_lookup_failure.
  - rewrite (get_api_weather_miss w city st Hmiss).
    destruct (provider_weather w city) as [d|]; [|reflexivity].
    destruct Hfail as [Hp|Hup]; [discriminate Hp|]. now rewrite Hup.
Qed.

Lemma early_failure_leaves_store_untouched_witness :
  let w := IST always_pune (fun _ => None) 0 cache_find_fails in
  ServerJs.get_api_weather w "Pune" (pune_cached_at 0)
  = (Normal city_not_found, pune_cached_at 0).
Proof.
  intros w.
  exact (early_failure_leaves_store_untouched w "Pune" (pune_cached_at 0)
           (or_introl eq_refl)).
Defined.

(* ===================================================================== *)
(** * More on the history routes                                          *)
(* ===================================================================== *)

Section FirstByCity.

Lemma firstByCity_In r h : In r (firstByCity h) -> In r h.
Proof.
  revert r. induction h as [|a h IH]; simpl; intros r; [tauto|].
  intros [->|Hr]; [now left|]. apply filter_In in Hr as [Hr _]. auto.
Qed.

Lemma NoDup_map_filter {A B} (f : A -> B) (P : A -> bool) l :
  List.NoDup (List.map f l) -> List.NoDup (List.map f (List.filter P l)).
Proof.
  induction l as [|x l IH]; simpl; intros H; [constructor|].
  inversion H as [|? ? Hx Hl]; subst.
  destruct (P x); simpl; [|auto].
  constructor; [|auto]. intros Hin. apply Hx.
  apply in_map_iff in Hin as (y & Hy & Hin). apply filter_In in Hin as [Hin _].
  apply in_map_iff. eauto.
Qed.

Lemma firstByCity_distinct h : List.NoDup (List.map cityKey (firstByCity h)).
Proof.
  induction h as [|a h IH]; simpl; constructor.
  - intros Hin. apply in_map_iff in Hin as (y & Hy & Hin).
    apply filter_In in Hin as [_ Hne]. unfold cityKey in Hy.
    rewrite Hy, String.eqb_refl in Hne. discriminate.
  - now apply NoDup_map_filter.
Qed.

Lemma StronglySorted_filter {A} (R : A -> A -> Prop) (P : A -> bool) l :
  StronglySorted R l -> StronglySorted R (List.filter P l).
Proof.
  induction 1 as [|x l Hl IH Hx]; simpl; [constructor|].
  destruct (P x); [|assumption]. constructor; [assumption|].
  apply List.Forall_forall. intros y Hy. apply filter_In in Hy as [Hy _].
  revert y Hy. now apply List.Forall_forall.
Qed.

Lemma StronglySorted_firstn {A} (R : A -> A -> Prop) n : forall l,
  StronglySorted R l -> StronglySorted R (List.firstn n l).
Proof.
  induction n as [|n IH]; intros l H; [constructor|].
  destruct H as [|x l Hl Hx]; simpl; constructor; [now apply IH|].
  apply List.Forall_forall. intros y Hy. apply firstn_In in Hy.
  revert y Hy. now apply List.Forall_forall.
Qed.

Lemma StronglySorted_select l :
  StronglySorted newer_or_equal l ->
  StronglySorted newer_or_equal (List.map Db.select_city_searchedAt l).
Proof.
  induction 1 as [|x l Hl IH Hx]; simpl; constructor; [assumption|].
  apply List.Forall_forall. intros y Hy.
  apply in_map_iff in Hy as (y0 & <- & Hy0).
  rewrite List.Forall_forall in Hx. exact (Hx y0 Hy0).
Qed.

Lemma firstByCity_sorted h :
  StronglySorted newer_or_equal h ->
  StronglySorted newer_or_equal (firstByCity h).
Proof.
  induction 1 as [|a h Hh IH Ha]; simpl; constructor.
  - now apply StronglySorted_filter.
  - apply List.Forall_forall. intros y Hy. apply filter_In in Hy as [Hy _].
    apply firstByCity_In in Hy. revert y Hy. now apply List.Forall_forall.
Qed.

Lemma firstByCity_complete h r :
  In r h -> exists r', In r' (firstByCity h) /\ cityKey r' = cityKey r.
Proof.
  induction h as [|a h IH]; simpl; [tauto|].
  intros [->|Hr]; [exists r; auto|].
  destruct (IH Hr) as (r' & Hr' & Hk).
  destruct (String.eqb_spec (cityKey r') (cityKey a)) as [Ha|Hne].
  - exists a. split; [now left|congruence].
  - exists r'. split; [|assumption]. right. apply filter_In.
    split; [assumption|]. fold (cityKey r') (cityKey a).
    now apply negb_true_iff, String.eqb_neq.
Qed.

End FirstByCity.

Section HistoryRoute.

Variable w : World.
Variable st : Store.
Hypothesis find_succeeds : fails w HistoryFind = false.

(** The records the query hands to the loop. *)
Let limited : list HistoryRecord :=
  List.map Db.select_city_searchedAt
    (List.firstn 10 (Db.sort_desc (SearchHistory st))).

Lemma get_api_history_result :
  ServerJs.get_api_history w st
  = (Normal (json (History (firstByCity limited))), st).
Proof.
  unfold ServerJs.get_api_history, try_catch, bind,
    Db.SearchHistory_find_recent, Db.await.
  rewrite find_succeeds. unfold ret. now rewrite uniqueHistory_firstByCity.
Qed.

Lemma limited_from_store r :
  In r limited ->
  exists r0, In r0 (SearchHistory st) /\
             city r = city r0 /\ searchedAt r = searchedAt r0.
Proof.
  intros (r0 & <- & H0)%in_map_iff. apply firstn_In in H0.
  exists r0. split; [|auto].
  eapply Permutation_in; [apply sort_desc_perm|assumption].
Qed.

End HistoryRoute.

(** X8.  When the history query succeeds the route leaves the store as it
    is and answers 200 with a list in which no two records have the same
    lowercased city, the records stand newest first, and every record
    carries the city and the time of a stored one. *)
Theorem history_answer_is_distinct_and_newest_first w st :
  fails w HistoryFind = false ->
  exists out,
    ServerJs.get_api_history w st = (Normal (json (History out)), st) /\
    List.NoDup (List.map cityKey out) /\
    StronglySorted newer_or_equal out /\
    forall r, In r out ->
      exists r0, In r0 (SearchHistory st) /\
                 city r = city r0 /\ searchedAt r = searchedAt r0.
Proof.
  intros Hf. eexists. split; [apply (get_api_history_result w st Hf)|].
  split; [apply firstByCity_distinct|]. split.
  - apply firstByCity_sorted, StronglySorted_select, StronglySorted_firstn,
      sort_desc_sorted.
  - intros r Hr. apply firstByCity_In in Hr.
    now apply (limited_from_store st).
Qed.

Lemma history_answer_is_distinct_and_newest_first_witness :
  let w := IST always_pune (fun _ => None) 0 no_failure in
  fails w HistoryFind = false /\
  exists out,
    ServerJs.get_api_history w four_searches
    = (Normal (json (History out)), four_searches) /\
    List.NoDup (List.map cityKey out).
Proof.
  intros w.
  assert (H1 : fails w HistoryFind = false) by reflexivity.
  split; [exact H1|].
  destruct (history_answer_is_distinct_and_newest_first w four_searches H1)
    as (out & Hrun & Hdistinct & _).
  exists out. split; [exact Hrun|exact Hdistinct].
Defined.

(** X9.  The most recent search comes first: when the query succeeds on
    a history that is not empty, the answer starts with a record whose
    time no stored record exceeds. *)
Theorem newest_search_is_listed_first w st :
  fails w HistoryFind = false ->
  SearchHistory st <> [] ->
  exists r rest,
    ServerJs.get_api_history w st = (Normal (json (History (r :: rest))), st) /\
    (exists r0, In r0 (SearchHistory st) /\
                city r = city r0 /\ searchedAt r = searchedAt r0) /\
    forall r0, In r0 (SearchHistory st) -> searchedAt r0 <= searchedAt r.
Proof.
  intros Hf Hne. rewrite (get_api_history_result w st Hf).
  pose proof (sort_desc_perm (SearchHistory st)) as Hperm.
  pose proof (sort_desc_sorted (SearchHistory st)) as Hsorted.
  destruct (Db.sort_desc (SearchHistory st)) as [|a sorted] eqn:E.
  - apply Permutation_nil in Hperm. contradiction.
  - simpl. do 2 eexists. split; [reflexivity|]. simpl. split.
    + exists a. split; [|auto]. eapply Permutation_in; [exact Hperm|now left].
    + intros r0 Hr0. apply Permutation_sym in Hperm.
      apply (Permutation_in _ Hperm) in Hr0 as [<-|Hr0]; [lia|].
      inversion Hsorted as [|? ? _ Ha]; subst.
      rewrite List.Forall_forall in Ha. exact (Ha r0 Hr0).
Qed.

Lemma newest_search_is_listed_first_witness :
  let w := IST always_pune (fun _ => None) 0 no_failure in
  fails w HistoryFind = false /\
  SearchHistory four_searches <> [] /\
  exists r rest,
    ServerJs.get_api_history w four_searches
    = (Normal (json (History (r :: rest))), four_searches).
Proof.
  intros w.
  assert (H1 : fails w HistoryFind = false) by reflexivity.
  assert (H2 : SearchHistory four_searches <> []) by discriminate.
  split; [exact H1|]. split; [exact H2|].
  destruct (newest_search_is_listed_first w four_searches H1 H2)
    as (r & rest & Hrun & _).
  exists r, rest. exact Hrun.
Defined.

(** X10.  No city among the ten newest records is lost: each of them has a
    record of the same lowercased city in the answer; so with at most ten
    stored records every stored city is listed. *)
Theorem recent_cities_are_all_listed w st :
  fails w HistoryFind = false ->
  exists out,
    ServerJs.get_api_history w st = (Normal (json (History out)), st) /\
    (forall r0, In r0 (List.firstn 10 (Db.sort_desc (SearchHistory st))) ->
       exists r, In r out /\ cityKey r = cityKey r0) /\
    ((List.length (SearchHistory st) <= 10)%nat ->
     forall r0, In r0 (SearchHistory st) ->
       exists r, In r out /\ cityKey r = cityKey r0).
Proof.
  intros Hf. eexists. split; [apply (get_api_history_result w st Hf)|].
  assert (Hrecent : forall r0,
            In r0 (List.firstn 10 (Db.sort_desc (SearchHistory st))) ->
            exists r, In r (firstByCity
                              (List.map Db.select_city_searchedAt
                                 (List.firstn 10 (Db.sort_desc (SearchHistory st)))))
                      /\ cityKey r = cityKey r0).
  { intros r0 Hr0.
    apply (in_map Db.select_city_searchedAt) in Hr0.
    destruct (firstByCity_complete _ _ Hr0) as (r & Hr & Hk).
    exists r. split; [assumption|]. rewrite Hk. reflexivity. }
  split; [exact Hrecent|].
  intros Hlen r0 Hr0. apply Hrecent.
  rewrite List.firstn_all2.
  - eapply Permutation_in; [symmetry; apply sort_desc_perm|assumption].
  - rewrite (Permutation_length (sort_desc_perm (SearchHistory st))). exact Hlen.
Qed.

Lemma recent_cities_are_all_listed_witness :
  let w := IST always_pune (fun _ => None) 0 no_failure in
  fails w HistoryFind = false /\
  exists out,
    ServerJs.get_api_history w four_searches
    = (Normal (json (History out)), four_searches) /\
    exists r, In r out /\ cityKey r = cityKey (searched "Delhi" 1).
Proof.
  intros w.
  assert (H1 : fails w HistoryFind = false) by reflexivity.
  split; [exact H1|].
  destruct (recent_cities_are_all_listed w four_searches H1)
    as (out & Hrun & _ & Hall).
  exists out. split; [exact Hrun|].
  apply Hall; [simpl; lia|now left].
Defined.

(** X11.  Clearing the history: when the deletion succeeds the answer is
    200 "History cleared", the cache is as before, and a history request
    on the resulting store lists nothing; when the deletion fails the
    answer is 500 "Error clearing history" and the store is as before. *)
Theorem cleared_history_lists_nothing w w' st :
  fails w' HistoryFind = false ->
  let st1 := snd (ServerJs.delete_api_history w st) in
  if fails w HistoryDeleteMany
  then ServerJs.delete_api_history w st = (Normal error_clearing_history, st)
  else
    fst (ServerJs.delete_api_history w st) = Normal history_cleared /\
    WeatherCache st1 = WeatherCache st /\
    ServerJs.get_api_history w' st1 = (Normal (json (History [])), st1).
Proof.
  intros Hf'. cbv zeta.
  unfold ServerJs.delete_api_history, try_catch, bind,
    Db.SearchHistory_deleteMany, Db.await.
  destruct (fails w HistoryDeleteMany); [reflexivity|]. simpl.
  split; [reflexivity|]. split; [reflexivity|].
  now rewrite (get_api_history_result w' _ Hf').
Qed.

Lemma cleared_history_lists_nothing_witness :
  let w := IST always_pune (fun _ => None) 0 no_failure in
  let st1 := snd (ServerJs.delete_api_history w four_searches) in
  fails w HistoryFind = false /\
  ServerJs.get_api_history w st1 = (Normal (json (History [])), st1).
Proof.
  intros w st1.
  assert (H1 : fails w HistoryFind = false) by reflexivity.
  split; [exact H1|].
  exact (proj2 (proj2 (cleared_history_lists_nothing w w four_searches H1))).
Defined.

(* ===================================================================== *)
(** * All routes together                                                 *)
(* ===================================================================== *)

(** X12.  Only the weather route and the history deletion write: every
    other request, the search without a query included, leaves the store
    exactly as it was. *)
Theorem reading_routes_keep_store w r st :
  (forall c, r <> GET_api_weather c) ->
  r <> DELETE_api_history ->
  snd (ServerJs.app w r st) = st.
Proof.
  intros Hw Hd. destruct r as [|c|c| | |[q|]]; simpl.
  - reflexivity.
  - now destruct (Hw c).
  - unfold ServerJs.get_api_forecast, try_catch, bind, Db.axios_get_forecast.
    destruct (provider_forecast w c) as [samples|]; [|reflexivity].
    simpl. unfold lift. now destruct (ServerJs.dailyData w samples).
  - unfold ServerJs.get_api_history, try_catch, bind,
      Db.SearchHistory_find_recent, Db.await.
    now destruct (fails w HistoryFind).
  - now destruct Hd.
  - reflexivity.
  - reflexivity.
Qed.

Lemma reading_routes_keep_store_witness :
  let w := IST always_pune (fun _ => Some ten_days) 0 no_failure in
  snd (ServerJs.app w (GET_api_forecast "Pune") four_searches) = four_searches.
Proof.
  intros w.
  refine (reading_routes_keep_store w (GET_api_forecast "Pune") four_searches _ _).
  - intros c. discriminate.
  - discriminate.
Defined.

(** X13.  Whatever a route sends is its own success shape with status
    200 or its own fixed message: 404 "City not found" for weather, 404
    "Forecast data not available" for forecast, 500 "Error fetching
    history" and 500 "Error clearing history" for the history routes; the
    health and the search route send nothing but 200. *)
Theorem answers_have_fixed_shapes w r st resp :
  fst (ServerJs.app w r st) = Normal resp ->
  route_answer r resp.
Proof.
  destruct r as [|c|c| | |[q|]]; simpl.
  - intros [= <-]. reflexivity.
  - destruct (cached_outcome w c st) as [[_ Hf]|[[e|] Hr]].
    + rewrite (get_api_weather_lookup_failure w c st Hf). intros [= <-]. now right.
    + rewrite (get_api_weather_hit w c st e Hr). intros [= <-]. left. eauto.
    + rewrite (get_api_weather_miss w c st Hr).
      destruct (provider_weather w c) as [d|]; [|intros [= <-]; now right].
      destruct (fails w CacheFindOneAndUpdate); [intros [= <-]; now right|].
      cbv zeta. destruct (fails w HistoryCreate); [intros [= <-]; now right|].
      destruct (String.eqb (name d) ""); intros [= <-]; [now right|left; eauto].
  - unfold ServerJs.get_api_forecast, try_catch, bind, Db.axios_get_forecast.
    destruct (provider_forecast w c) as [samples|]; [|intros [= <-]; now right].
    simpl. unfold lift.
    destruct (ServerJs.dailyData w samples); intros [= <-];
      [left; eauto|now right].
  - unfold ServerJs.get_api_history, try_catch, bind,
      Db.SearchHistory_find_recent, Db.await.
    destruct (fails w HistoryFind); intros [= <-]; [now right|left; eauto].
  - unfold ServerJs.delete_api_history, try_catch, bind,
      Db.SearchHistory_deleteMany, Db.await.
    destruct (fails w HistoryDeleteMany); intros [= <-]; [now right|now left].
  - intros [= <-]. eauto.
  - discriminate.
Qed.

Lemma answers_have_fixed_shapes_witness :
  let w := IST always_pune (fun _ => None) 0 history_delete_fails in
  fst (ServerJs.app w DELETE_api_history four_searches)
    = Normal error_clearing_history /\
  route_answer DELETE_api_history error_clearing_history.
Proof.
  intros w.
  assert (H : fst (ServerJs.app w DELETE_api_history four_searches)
              = Normal error_clearing_history) by reflexivity.
  split; [exact H|].
  exact (answers_have_fixed_shapes w DELETE_api_history four_searches _ H).
Defined.

(* ===================================================================== *)
(** * More on the city search                                             *)
(* ===================================================================== *)

Section SearchFacts.

Lemma startsWith_refl s : startsWith s s = true.
Proof.
  induction s as [|c s IH]; simpl; [reflexivity|].
  now rewrite Ascii.eqb_refl.
Qed.

Lemma includes_refl s : includes s s = true.
Proof. destruct s; simpl; [reflexivity|]. now rewrite Ascii.eqb_refl, startsWith_refl. Qed.

Lemma firstn_nil_iff {A} n (l : list A) :
  (0 < n)%nat -> List.firstn n l = [] <-> l = [].
Proof.
  intros Hn. destruct n; [lia|]. destruct l; simpl; split; congruence.
Qed.

Lemma filter_nil_iff {A} (P : A -> bool) l :
  List.filter P l = [] <-> forall x, In x l -> P x = false.
Proof.
  induction l as [|x l IH]; simpl; [tauto|].
  destruct (P x) eqn:E.
  - split; [discriminate|]. intros H. specialize (H x (or_introl eq_refl)).
    congruence.
  - rewrite IH. split.
    + intros H y [<-|Hy]; auto.
    + intros H y Hy. apply H. now right.
Qed.

Lemma isSubsequence_sublist a b :
  isSubsequence a b = true -> a `sublist_of` b.
Proof.
  revert a. induction b as [|y b IH]; intros [|x a]; simpl;
    try discriminate; try (intros _; apply sublist_nil_l).
  destruct (String.eqb_spec x y) as [->|_]; intros H.
  - constructor. now apply IH.
  - constructor. now apply IH.
Qed.

Lemma filter_sublist_mono {A} (P : A -> bool) (a b : list A) :
  a `sublist_of` b -> List.filter P a `sublist_of` List.filter P b.
Proof.
  induction 1 as [|x a b _ IH|x a b _ IH]; simpl.
  - constructor.
  - destruct (P x); [now constructor|assumption].
  - destruct (P x); [now constructor|assumption].
Qed.

End SearchFacts.

(** X14.  The search comes back empty exactly when no city of the list
    matches the query; the full name of a listed city always finds
    something. *)
Theorem search_is_empty_only_without_match q :
  (ServerJs.filtered q = [] <->
   forall c, In c ServerJs.indianCities -> matches q c = false) /\
  (In q ServerJs.indianCities -> ServerJs.filtered q <> []).
Proof.
  assert (Hiff : ServerJs.filtered q = [] <->
                 forall c, In c ServerJs.indianCities -> matches q c = false).
  { unfold ServerJs.filtered, slice0.
    rewrite firstn_nil_iff by lia. apply filter_nil_iff. }
  split; [exact Hiff|].
  intros Hq Hnil. rewrite Hiff in Hnil. specialize (Hnil q Hq).
  unfold matches in Hnil. rewrite includes_refl in Hnil. discriminate.
Qed.

(** X15.  The list of [src/unnamed/part_000] is the list of
    [src/server.js] with names left out, so for every query the names
    that the search of [part_000] returns are, in the same order, among
    the matches in the list of [server.js], each one a name of that
    list. *)
Theorem part000_search_stays_within_server_matches q :
  Part000.filtered q
    `sublist_of` List.filter (matches q) ServerJs.indianCities /\
  forall c, In c (Part000.filtered q) ->
            In c ServerJs.indianCities /\ matches q c = true.
Proof.
  assert (Hsub : Part000.filtered q
                 `sublist_of` List.filter (matches q) ServerJs.indianCities).
  { unfold Part000.filtered, slice0.
    change (fun city => includes (toLowerCase city) (toLowerCase q))
      with (matches q).
    etransitivity; [apply firstn_sublist|].
    apply filter_sublist_mono, isSubsequence_sublist.
    vm_compute. reflexivity. }
  split; [exact Hsub|].
  intros c Hc. apply filter_In. apply list_elem_of_In.
  apply (sublist_subseteq _ _ Hsub). now apply list_elem_of_In.
Qed.
